(** * cloudknot.aws.iam : the IamRole resource

    A shallow embedding of [src/cloudknot/aws/iam.py].  The class talks to
    AWS through the module-level boto3 client [IAM]; here that client is a
    record of response functions, each of which sees the history of calls
    made so far, and every method of [IamRole] is a computation in a small
    state-and-exception monad whose state holds the object ([self]), the
    trace of client calls and what was printed. *)

From stdpp Require Import gmap strings list.
From Stdlib Require Import ZArith.

Local Open Scope string_scope.
Local Open Scope list_scope.
Local Set Warnings "-register-all".

(** ** Python values *)

(** The values a caller can pass to the constructor, and the documents that
    travel to and from the service. *)
Inductive pyval : Type :=
| PNone
| PBool (b : bool)
| PInt (z : Z)
| PStr (s : string)
| PTuple (xs : list pyval)
| PList (xs : list pyval)
| PDict (kvs : list (string * pyval)).

(** [bool(v)] *)
Definition truthy (v : pyval) : bool :=
  match v with
  | PNone => false
  | PBool b => b
  | PInt z => negb (z =? 0)%Z
  | PStr s => negb (String.eqb s "")
  | PTuple xs | PList xs => negb (Nat.eqb (length xs) 0)
  | PDict kvs => negb (Nat.eqb (length kvs) 0)
  end.

(** [isinstance(v, str)] *)
Definition is_str (v : pyval) : bool :=
  match v with PStr _ => true | _ => false end.

Fixpoint chars (s : string) : list string :=
  match s with
  | EmptyString => []
  | String c r => String c EmptyString :: chars r
  end.

(** [iter(v)]: [None] stands for the TypeError of a value that cannot be
    iterated.  A dict iterates over its keys, a string over its
    characters. *)
Definition py_iter (v : pyval) : option (list pyval) :=
  match v with
  | PStr s => Some (PStr <$> chars s)
  | PTuple xs | PList xs => Some xs
  | PDict kvs => Some ((λ kv, PStr kv.1) <$> kvs)
  | PNone | PBool _ | PInt _ => None
  end.

(** The strings among a sequence of values; all of them once [is_str] has
    been checked on each. *)
Fixpoint strs (xs : list pyval) : list string :=
  match xs with
  | [] => []
  | PStr s :: r => s :: strs r
  | _ :: r => strs r
  end.

(** ** Exceptions *)

Inductive Error : Type :=
| NoSuchEntityException                           (* IAM.exceptions.NoSuchEntityException *)
| ClientError (code : string)                     (* any other failure of the service *)
| Exception (msg : string) (detail : list string) (* raise Exception(msg, detail) *)
| TypeError
| IndexError.

Definition Result (A : Type) : Type := Error + A.

(** ** The IAM client *)

Record Role := mkRoleInfo
  { Role_Arn : string;
    Role_Description : option string;            (* the key may be missing *)
    Role_AssumeRolePolicyDocument : pyval }.

Record Policy := mkPolicy
  { PolicyName : string;
    PolicyArn : string }.

Record InstanceProfile := mkInstanceProfile
  { InstanceProfileName : string;
    InstanceProfileArn : string }.

(** One constructor per client operation the module uses, with the keyword
    arguments of the call. *)
Inductive Call : Type :=
| GetRole (RoleName : string)
| ListAttachedRolePolicies (RoleName : string)
| ListPolicies
| CreateRole (RoleName AssumeRolePolicyDocument : string) (Description : option string)
| AttachRolePolicy (PolicyArn RoleName : string)
| CreateInstanceProfile (InstanceProfileName : string)
| AddRoleToInstanceProfile (InstanceProfileName RoleName : string)
| ListInstanceProfilesForRole (RoleName : string)
| RemoveRoleFromInstanceProfile (InstanceProfileName RoleName : string)
| DeleteInstanceProfile (InstanceProfileName : string)
| DetachRolePolicy (RoleName PolicyArn : string)
| DeleteRole (RoleName : string).

(** The calls that change the account, as opposed to the reads. *)
Definition is_write (c : Call) : bool :=
  match c with
  | GetRole _ | ListAttachedRolePolicies _ | ListPolicies
  | ListInstanceProfilesForRole _ => false
  | _ => true
  end.

(** The collaborator: what each operation answers, given the calls that
    were made before it. *)
Record Client := mkClient
  { get_role : list Call → string → Result Role;
    list_attached_role_policies : list Call → string → Result (list string);
    list_policies : list Call → Result (list Policy);
    create_role : list Call → string → string → option string → Result string;
    attach_role_policy : list Call → string → string → Result unit;
    create_instance_profile : list Call → string → Result unit;
    add_role_to_instance_profile : list Call → string → string → Result unit;
    list_instance_profiles_for_role : list Call → string → Result (list InstanceProfile);
    remove_role_from_instance_profile : list Call → string → string → Result unit;
    delete_instance_profile : list Call → string → Result unit;
    detach_role_policy : list Call → string → string → Result unit;
    delete_role : list Call → string → Result unit }.

(** ** The object *)

(** The attributes of an [IamRole].  [None] is Python's [None]; it is also
    what an attribute holds before [__init__] has assigned it. *)
Record IamRole := mkIamRole
  { name : string;
    verbosity : Z;
    _pre_existing : option bool;
    _description : option string;
    _service : option string;
    _role_policy_document : option pyval;
    _policies : option (list string);
    _add_instance_profile : option bool;
    _arn : option string }.

(** The namedtuple returned by [_exists_already]; every field but the
    first defaults to [None]. *)
Record RoleExists := mkRoleExists
  { exists_ : bool;
    re_description : option string;
    re_role_policy_document : option pyval;
    re_policies : option (list string);
    re_add_instance_profile : option bool;
    re_arn : option string }.

(** ** The monad *)

Record State := mkState
  { self : IamRole;
    calls : list Call;
    stdout : list string }.

Definition M (A : Type) : Type := State → Result A * State.

Definition ret {A} (a : A) : M A := λ st, (inr a, st).

Definition raise {A} (e : Error) : M A := λ st, (inl e, st).

Definition bind {A B} (m : M A) (k : A → M B) : M B :=
  λ st, match m st with
        | (inr a, st') => k a st'
        | (inl e, st') => (inl e, st')
        end.

Notation "'let*' x ':=' m 'in' k" := (bind m (λ x, k))
  (at level 10, x pattern, m at level 100, k at level 200).
Notation "m ;;; k" := (bind m (λ _, k))
  (at level 100, k at level 200, right associativity).

(** [try: m  except E: h] *)
Definition try_except {A} (m : M A) (h : Error → option (M A)) : M A :=
  λ st, match m st with
        | (inl e, st') => match h e with
                          | Some k => k st'
                          | None => (inl e, st')
                          end
        | r => r
        end.

(** Reading an attribute of [self]. *)
Definition attr {A} (f : IamRole → A) : M A := λ st, (inr (f (self st)), st).

(** Assigning to an attribute of [self]. *)
Definition setattr (f : IamRole → IamRole) : M unit :=
  λ st, (inr tt, mkState (f (self st)) (calls st) (stdout st)).

Definition print (line : string) : M unit :=
  λ st, (inr tt, mkState (self st) (calls st) (stdout st ++ [line])).

Definition when (b : bool) (m : M unit) : M unit := if b then m else ret tt.

(** [for x in xs: body] *)
Fixpoint for_each {A} (xs : list A) (body : A → M unit) : M unit :=
  match xs with
  | [] => ret tt
  | x :: r => body x ;;; for_each r body
  end.

(** A call to the client: the answer depends on the history, and the call
    is recorded whether it succeeds or raises. *)
Definition invoke {A} (c : Call) (answer : list Call → Result A) : M A :=
  λ st, (answer (calls st), mkState (self st) (calls st ++ [c]) (stdout st)).

Definition lift {A} (r : Result A) : M A := λ st, (r, st).

(** ** Attribute assignment, one setter per private attribute *)

Definition set_name (v : string) (r : IamRole) : IamRole :=
  mkIamRole v (verbosity r) (_pre_existing r) (_description r) (_service r)
            (_role_policy_document r) (_policies r) (_add_instance_profile r) (_arn r).

Definition set_verbosity (v : Z) (r : IamRole) : IamRole :=
  mkIamRole (name r) v (_pre_existing r) (_description r) (_service r)
            (_role_policy_document r) (_policies r) (_add_instance_profile r) (_arn r).

Definition set_pre_existing (v : option bool) (r : IamRole) : IamRole :=
  mkIamRole (name r) (verbosity r) v (_description r) (_service r)
            (_role_policy_document r) (_policies r) (_add_instance_profile r) (_arn r).

Definition set_description (v : option string) (r : IamRole) : IamRole :=
  mkIamRole (name r) (verbosity r) (_pre_existing r) v (_service r)
            (_role_policy_document r) (_policies r) (_add_instance_profile r) (_arn r).

Definition set_service (v : option string) (r : IamRole) : IamRole :=
  mkIamRole (name r) (verbosity r) (_pre_existing r) (_description r) v
            (_role_policy_document r) (_policies r) (_add_instance_profile r) (_arn r).

Definition set_role_policy_document (v : option pyval) (r : IamRole) : IamRole :=
  mkIamRole (name r) (verbosity r) (_pre_existing r) (_description r) (_service r)
            v (_policies r) (_add_instance_profile r) (_arn r).

Definition set_policies (v : option (list string)) (r : IamRole) : IamRole :=
  mkIamRole (name r) (verbosity r) (_pre_existing r) (_description r) (_service r)
            (_role_policy_document r) v (_add_instance_profile r) (_arn r).

Definition set_add_instance_profile (v : option bool) (r : IamRole) : IamRole :=
  mkIamRole (name r) (verbosity r) (_pre_existing r) (_description r) (_service r)
            (_role_policy_document r) (_policies r) v (_arn r).

Definition set_arn (v : option string) (r : IamRole) : IamRole :=
  mkIamRole (name r) (verbosity r) (_pre_existing r) (_description r) (_service r)
            (_role_policy_document r) (_policies r) (_add_instance_profile r) v.

(** ** Class attributes and pure fragments of [__init__] *)

Definition _allowed_services : list string :=
  ["batch"; "ec2"; "ecs-tasks"; "lambda"; "spotfleet"].

(** [service in self._allowed_services]: list membership by [==]; no value
    other than a string equals a string. *)
Definition in_allowed_services (service : pyval) : option string :=
  match service with
  | PStr s => if bool_decide (s ∈ _allowed_services) then Some s else None
  | _ => None
  end.

(** The dict literal of lines 65-75, for the value stored in
    [self._service]. *)
Definition role_policy (service : string) : pyval :=
  PDict [ ("Version", PStr "2012-10-17");
          ("Statement",
           PList [ PDict [ ("Sid", PStr "");
                           ("Effect", PStr "Allow");
                           ("Principal", PDict [ ("Service", PStr service) ]);
                           ("Action", PStr "sts:AssumeRole") ] ]) ].

(** Lines 83-89: the set of requested policy names. *)
Definition input_policies_of (policies : pyval) : Result (gset string) :=
  match policies with
  | PStr s => inr {[ s ]}
  | _ =>
      match py_iter policies with
      | None => inl TypeError
      | Some xs =>
          if forallb is_str xs then inr (list_to_set (strs xs))
          else inl (Exception "policies must be a string or a sequence of strings." [])
      end
  end.

(** Lines 83-95: the check of the requested policies against the names
    the account offers; the result is what is stored in [self._policies]. *)
Definition check_policies (policies : pyval) (aws_policies : list string)
  : Result (list string) :=
  match input_policies_of policies with
  | inl e => inl e
  | inr input_policies =>
      if negb (bool_decide (input_policies ⊂ list_to_set aws_policies)) then
        inl (Exception "each policy must be an AWS managed policy: " aws_policies)
      else
        inr (elements input_policies)
  end.

(** The names the specification gives to the failures of [__init__]. *)
Definition InvalidServicePrincipal : Error :=
  Exception "service must be in " _allowed_services.

Definition InvalidPolicySet (e : Error) : Prop :=
  e = Exception "policies must be a string or a sequence of strings." []
  ∨ ∃ aws_policies, e = Exception "each policy must be an AWS managed policy: " aws_policies.

Definition InvalidInstanceProfileFlag : Error :=
  Exception "add_instance_profile is a boolean input" [].

(** [policy_filter[0]['Arn']] for the policies named [policy]. *)
Definition first_arn (policy : string) (policy_response : list Policy) : Result string :=
  match filter (λ p, PolicyName p = policy) policy_response with
  | [] => inl IndexError
  | p :: _ => inr (PolicyArn p)
  end.

(** ** The methods of [IamRole] *)

Section IamRole.

(** The module-level client. *)
Variable IAM : Client.

(** [json.dumps] and the builtin [str], which the module only calls. *)
Variable json_dumps : pyval → string.
Variable str : pyval → string.

Definition IAM_get_role (RoleName : string) : M Role :=
  invoke (GetRole RoleName) (λ h, get_role IAM h RoleName).

Definition IAM_list_attached_role_policies (RoleName : string) : M (list string) :=
  invoke (ListAttachedRolePolicies RoleName)
         (λ h, list_attached_role_policies IAM h RoleName).

Definition IAM_list_policies : M (list Policy) :=
  invoke ListPolicies (list_policies IAM).

Definition IAM_create_role (RoleName AssumeRolePolicyDocument : string)
           (Description : option string) : M string :=
  invoke (CreateRole RoleName AssumeRolePolicyDocument Description)
         (λ h, create_role IAM h RoleName AssumeRolePolicyDocument Description).

Definition IAM_attach_role_policy (PolicyArn RoleName : string) : M unit :=
  invoke (AttachRolePolicy PolicyArn RoleName)
         (λ h, attach_role_policy IAM h PolicyArn RoleName).

Definition IAM_create_instance_profile (InstanceProfileName : string) : M unit :=
  invoke (CreateInstanceProfile InstanceProfileName)
         (λ h, create_instance_profile IAM h InstanceProfileName).

Definition IAM_add_role_to_instance_profile (InstanceProfileName RoleName : string)
  : M unit :=
  invoke (AddRoleToInstanceProfile InstanceProfileName RoleName)
         (λ h, add_role_to_instance_profile IAM h InstanceProfileName RoleName).

Definition IAM_list_instance_profiles_for_role (RoleName : string)
  : M (list InstanceProfile) :=
  invoke (ListInstanceProfilesForRole RoleName)
         (λ h, list_instance_profiles_for_role IAM h RoleName).

Definition IAM_remove_role_from_instance_profile (InstanceProfileName RoleName : string)
  : M unit :=
  invoke (RemoveRoleFromInstanceProfile InstanceProfileName RoleName)
         (λ h, remove_role_from_instance_profile IAM h InstanceProfileName RoleName).

Definition IAM_delete_instance_profile (InstanceProfileName : string) : M unit :=
  invoke (DeleteInstanceProfile InstanceProfileName)
         (λ h, delete_instance_profile IAM h InstanceProfileName).

Definition IAM_detach_role_policy (RoleName PolicyArn : string) : M unit :=
  invoke (DetachRolePolicy RoleName PolicyArn)
         (λ h, detach_role_policy IAM h RoleName PolicyArn).

Definition IAM_delete_role (RoleName : string) : M unit :=
  invoke (DeleteRole RoleName) (λ h, delete_role IAM h RoleName).

(** Modelled from the spec: [ObjectWithArn.__init__] of [base_classes.py],
    which is not among the sources; the specification describes it as the
    bookkeeping that stores the name and the verbosity flag. *)
Definition ObjectWithArn__init__ (name_ : string) (verbosity_ : Z) : M unit :=
  setattr (set_name name_) ;;;
  setattr (set_verbosity verbosity_).

(** [IamRole._exists_already], lines 117-164. *)
Definition _exists_already : M RoleExists :=
  try_except
    (let* self_name := attr name in
     let* response := IAM_get_role self_name in
     let arn := Role_Arn response in
     let description :=
       match Role_Description response with
       | Some d => d
       | None => ""                                   (* except KeyError *)
       end in
     let role_policy := Role_AssumeRolePolicyDocument response in
     let* attached_policies := IAM_list_attached_role_policies self_name in
     let policies := attached_policies in
     let* v := attr verbosity in
     when (0 <? v)%Z
          (print ("IAM role " +:+ self_name +:+ " already exists: " +:+ arn)) ;;;
     ret (mkRoleExists true (Some description) (Some role_policy) (Some policies)
                       (Some false) (Some arn)))
    (λ e, match e with
          | NoSuchEntityException =>
              Some (ret (mkRoleExists false None None None None None))
          | _ => None
          end).

(** [IamRole._create], lines 166-220. *)
Definition _create : M string :=
  let* self_name := attr name in
  let* document := attr _role_policy_document in
  let* description := attr _description in
  let* role_arn :=
    IAM_create_role self_name (json_dumps (default PNone document)) description in
  let* v := attr verbosity in
  when (0 <? v)%Z
       (print ("Created role " +:+ self_name +:+ " with arn " +:+ role_arn)) ;;;
  let* policy_response := IAM_list_policies in
  let* policies := attr _policies in
  match policies with
  | None => raise TypeError
  | Some policies =>
      for_each policies (λ policy,
        let* policy_arn := lift (first_arn policy policy_response) in
        IAM_attach_role_policy policy_arn self_name ;;;
        when (0 <? v)%Z
             (print ("Attached policy " +:+ policy +:+ " to role " +:+ self_name)))
  end ;;;
  let* add_instance_profile := attr _add_instance_profile in
  when (default false add_instance_profile)
       (let instance_profile_name := self_name +:+ "-instance-profile" in
        IAM_create_instance_profile instance_profile_name ;;;
        IAM_add_role_to_instance_profile instance_profile_name self_name ;;;
        when (0 <? v)%Z
             (print ("Created instance profile " +:+ instance_profile_name))) ;;;
  ret role_arn.

(** [IamRole.__init__], lines 12-102. *)
Definition __init__ (name_ : string) (description service policies
                     add_instance_profile : pyval) (verbosity_ : Z) : M unit :=
  ObjectWithArn__init__ name_ verbosity_ ;;;
  let* role_exists := _exists_already in
  setattr (set_pre_existing (Some (exists_ role_exists))) ;;;
  if exists_ role_exists then
    setattr (set_description (re_description role_exists)) ;;;
    setattr (set_service None) ;;;
    setattr (set_role_policy_document (re_role_policy_document role_exists)) ;;;
    setattr (set_policies (re_policies role_exists)) ;;;
    setattr (set_add_instance_profile (re_add_instance_profile role_exists)) ;;;
    setattr (set_arn (re_arn role_exists))
  else
    (if truthy description then
       setattr (set_description (Some (str description)))
     else
       setattr (set_description (Some "This role was generated by cloudknot"))) ;;;
    (match in_allowed_services service with
     | Some s => setattr (set_service (Some (s +:+ ".amazonaws.com")))
     | None => raise InvalidServicePrincipal
     end) ;;;
    let* self_service := attr _service in
    setattr (set_role_policy_document
               (Some (role_policy (default "" self_service)))) ;;;
    let* response := IAM_list_policies in
    let aws_policies := PolicyName <$> response in
    let* checked := lift (check_policies policies aws_policies) in
    setattr (set_policies (Some checked)) ;;;
    (match add_instance_profile with
     | PBool b => setattr (set_add_instance_profile (Some b))
     | _ => raise InvalidInstanceProfileFlag
     end) ;;;
    let* arn := _create in
    setattr (set_arn (Some arn)).

(** The property [instance_profile_arn], lines 222-232. *)
Definition instance_profile_arn : M (option string) :=
  let* self_name := attr name in
  let* response := IAM_list_instance_profiles_for_role self_name in
  match response with
  | p :: _ => ret (Some (InstanceProfileArn p))
  | [] => ret None
  end.

(** [IamRole.remove_aws_resource], lines 234-274. *)
Definition remove_aws_resource : M unit :=
  let* self_name := attr name in
  let* add_instance_profile := attr _add_instance_profile in
  when (default false add_instance_profile)
       (let* response := IAM_list_instance_profiles_for_role self_name in
        match response with
        | [] => raise IndexError
        | p :: _ =>
            let instance_profile_name := InstanceProfileName p in
            IAM_remove_role_from_instance_profile instance_profile_name self_name ;;;
            IAM_delete_instance_profile instance_profile_name
        end) ;;;
  let* policy_response := IAM_list_policies in
  let* policies := attr _policies in
  match policies with
  | None => raise TypeError
  | Some policies =>
      for_each policies (λ policy,
        let* policy_arn := lift (first_arn policy policy_response) in
        IAM_detach_role_policy self_name policy_arn)
  end ;;;
  IAM_delete_role self_name ;;;
  let* v := attr verbosity in
  when (0 <? v)%Z (print ("Deleted role " +:+ self_name)).

End IamRole.


(** ** Vocabulary of the statements *)

(** The ARN that the loops of [_create] and [remove_aws_resource] find
    for a policy name. *)
Definition arn_of (policy_response : list Policy) (policy : string) : string :=
  match first_arn policy policy_response with
  | inr a => a
  | inl _ => ""
  end.

(** A client that accepts the four changes [remove_aws_resource] asks for
    on the role [role_name]. *)
Definition accepts_teardown (IAM : Client) (role_name : string) : Prop :=
  (∀ h profile, remove_role_from_instance_profile IAM h profile role_name = inr tt)
  ∧ (∀ h profile, delete_instance_profile IAM h profile = inr tt)
  ∧ (∀ h arn, detach_role_policy IAM h role_name arn = inr tt)
  ∧ (∀ h, delete_role IAM h role_name = inr tt).

(** A construction is fresh when its probe returns [exists = False]: the
    branch of [__init__] that builds a new role is then taken. *)
Definition constructs_fresh (IAM : Client) (name_ : string) (verbosity_ : Z)
           (st : State) : Prop :=
  ∃ snapshot st',
    _exists_already IAM (ObjectWithArn__init__ name_ verbosity_ st).2
    = (inr snapshot, st')
    ∧ exists_ snapshot = false.

(** [stable P m]: if [P] holds of the object before [m] runs, it holds of
    it afterwards, whether [m] returns or raises. *)
Definition stable {A} (P : IamRole → Prop) (m : M A) : Prop :=
  ∀ st, P (self st) → P (self (m st).2).


(** ** A concrete account *)

(** An account whose answers do not depend on the history: [role] is the
    role of the probed name if there is one, [attached] its attached
    policies, [policies] the policies on offer and [profiles] the instance
    profiles bound to the role.  Every change is accepted. *)
Definition account (role : option Role) (attached : list string)
           (policies : list Policy) (profiles : list InstanceProfile) : Client :=
  {| get_role := λ _ _,
       match role with
       | Some r => inr r
       | None => inl NoSuchEntityException
       end;
     list_attached_role_policies := λ _ _, inr attached;
     list_policies := λ _, inr policies;
     create_role := λ _ RoleName _ _, inr ("arn:aws:iam::123456789012:role/" +:+ RoleName);
     attach_role_policy := λ _ _ _, inr tt;
     create_instance_profile := λ _ _, inr tt;
     add_role_to_instance_profile := λ _ _ _, inr tt;
     list_instance_profiles_for_role := λ _ _, inr profiles;
     remove_role_from_instance_profile := λ _ _ _, inr tt;
     delete_instance_profile := λ _ _, inr tt;
     detach_role_policy := λ _ _ _, inr tt;
     delete_role := λ _ _, inr tt |}.

Definition managed_policies : list Policy :=
  [ mkPolicy "AmazonS3ReadOnlyAccess" "arn:aws:iam::aws:policy/AmazonS3ReadOnlyAccess";
    mkPolicy "AmazonEC2FullAccess" "arn:aws:iam::aws:policy/AmazonEC2FullAccess";
    mkPolicy "AWSLambdaExecute" "arn:aws:iam::aws:policy/AWSLambdaExecute" ].

Definition existing_role : Role :=
  {| Role_Arn := "arn:aws:iam::123456789012:role/my-role";
     Role_Description := None;
     Role_AssumeRolePolicyDocument := role_policy "ec2.amazonaws.com" |}.

Definition my_profile : InstanceProfile :=
  {| InstanceProfileName := "my-role-instance-profile";
     InstanceProfileArn := "arn:aws:iam::123456789012:instance-profile/my-role-instance-profile" |}.

(** The object before [__init__] has run, and a state with no call made. *)
Definition new_object : IamRole :=
  mkIamRole "" 0 None None None None None None None.

Definition start : State := mkState new_object [] [].

(** An object as a construction with an instance profile and two policies
    leaves it, in a state with no call made since. *)
Definition built_role : IamRole :=
  {| name := "my-role";
     verbosity := 0;
     _pre_existing := Some false;
     _description := Some "This role was generated by cloudknot";
     _service := Some "batch.amazonaws.com";
     _role_policy_document := Some (role_policy "batch.amazonaws.com");
     _policies := Some ["AWSLambdaExecute"; "AmazonS3ReadOnlyAccess"];
     _add_instance_profile := Some true;
     _arn := Some "arn:aws:iam::123456789012:role/my-role" |}.

(** Stand-ins for [json.dumps] and [str] where a concrete run needs them;
    [str] of a string is the string. *)
Definition dumps_stub (v : pyval) : string := "".

Definition str_stub (v : pyval) : string :=
  match v with
  | PStr s => s
  | _ => ""
  end.

(** The calls that build a role up and the calls that take it down. *)
Definition is_setup (c : Call) : bool :=
  match c with
  | CreateRole _ _ _ | AttachRolePolicy _ _
  | CreateInstanceProfile _ | AddRoleToInstanceProfile _ _ => true
  | _ => false
  end.

Definition is_teardown (c : Call) : bool :=
  match c with
  | RemoveRoleFromInstanceProfile _ _ | DeleteInstanceProfile _
  | DetachRolePolicy _ _ | DeleteRole _ => true
  | _ => false
  end.

(** [emits Q m]: whatever state [m] is started in and however it ends, it
    only adds calls to the trace, and every call it adds satisfies [Q]. *)
Definition emits {A} (Q : Call → Prop) (m : M A) : Prop :=
  ∀ st, ∃ issued, calls (m st).2 = calls st ++ issued ∧ Forall Q issued.

(** The attach calls of [_create] for the policies [policies]. *)
Definition attaches (policy_response : list Policy) (role_name : string)
           (policies : list string) : list Call :=
  (λ policy, AttachRolePolicy (arn_of policy_response policy) role_name) <$> policies.

(** The detach calls of [remove_aws_resource] for the policies [policies]. *)
Definition detaches (policy_response : list Policy) (role_name : string)
           (policies : list string) : list Call :=
  (λ policy, DetachRolePolicy role_name (arn_of policy_response policy)) <$> policies.

(** A role found with a description, where [existing_role] has none. *)
Definition described_role : Role :=
  {| Role_Arn := "arn:aws:iam::123456789012:role/my-role";
     Role_Description := Some "made by hand";
     Role_AssumeRolePolicyDocument := role_policy "lambda.amazonaws.com" |}.

(** An account in which [get_role], [create_role] and the unbinding of a
    profile are denied. *)
Definition denied_account : Client :=
  {| get_role := λ _ _, inl (ClientError "AccessDenied");
     list_attached_role_policies := λ _ _, inr [];
     list_policies := λ _, inr managed_policies;
     create_role := λ _ _ _ _, inl (ClientError "AccessDenied");
     attach_role_policy := λ _ _ _, inr tt;
     create_instance_profile := λ _ _, inr tt;
     add_role_to_instance_profile := λ _ _ _, inr tt;
     list_instance_profiles_for_role := λ _ _, inr [my_profile];
     remove_role_from_instance_profile := λ _ _ _, inl (ClientError "AccessDenied");
     delete_instance_profile := λ _ _, inr tt;
     detach_role_policy := λ _ _ _, inr tt;
     delete_role := λ _ _, inr tt |}.

(** An account in which the role is deleted between the two reads of the
    probe: [get_role] finds it, the listing of its policies does not. *)
Definition vanishing_account : Client :=
  {| get_role := λ _ _, inr existing_role;
     list_attached_role_policies := λ _ _, inl NoSuchEntityException;
     list_policies := λ _, inr managed_policies;
     create_role := λ _ RoleName _ _, inr ("arn:aws:iam::123456789012:role/" +:+ RoleName);
     attach_role_policy := λ _ _ _, inr tt;
     create_instance_profile := λ _ _, inr tt;
     add_role_to_instance_profile := λ _ _ _, inr tt;
     list_instance_profiles_for_role := λ _ _, inr [];
     remove_role_from_instance_profile := λ _ _ _, inr tt;
     delete_instance_profile := λ _ _, inr tt;
     detach_role_policy := λ _ _ _, inr tt;
     delete_role := λ _ _, inr tt |}.

(** An object one of whose policies is no longer on offer. *)
Definition stale_role : IamRole :=
  {| name := "my-role";
     verbosity := 1;
     _pre_existing := Some false;
     _description := Some "This role was generated by cloudknot";
     _service := Some "batch.amazonaws.com";
     _role_policy_document := Some (role_policy "batch.amazonaws.com");
     _policies := Some ["AWSLambdaExecute"; "RetiredPolicy"; "AmazonS3ReadOnlyAccess"];
     _add_instance_profile := Some false;
     _arn := Some "arn:aws:iam::123456789012:role/my-role" |}.

(** [keeps I m]: [m] takes states that satisfy [I] to states that satisfy
    [I], whether it returns or raises. *)
Definition keeps {A} (I : State → Prop) (m : M A) : Prop :=
  ∀ st, I st → I (m st).2.

(** The object is not verbose and the output so far is [out]. *)
Definition quiet (out : list string) (st : State) : Prop :=
  (verbosity (self st) ≤ 0)%Z ∧ stdout st = out.

(** * Properties *)

(** ** Running a computation *)

Lemma bind_inr {A B} (m : M A) (k : A → M B) st a st' :
  m st = (inr a, st') → bind m k st = k a st'.
Proof. intros H. unfold bind. now rewrite H. Qed.

Lemma bind_inl {A B} (m : M A) (k : A → M B) st e st' :
  m st = (inl e, st') → bind m k st = (inl e, st').
Proof. intros H. unfold bind. now rewrite H. Qed.

(** ** Properties of [self] that a computation keeps *)

Section Stable.

Context (P : IamRole → Prop).

Lemma stable_ret {A} (a : A) : stable P (ret a).
Proof. intros st H; exact H. Qed.

Lemma stable_raise {A} (e : Error) : stable P (raise (A:=A) e).
Proof. intros st H; exact H. Qed.

Lemma stable_lift {A} (r : Result A) : stable P (lift r).
Proof. intros st H; exact H. Qed.

Lemma stable_attr {A} (f : IamRole → A) : stable P (attr f).
Proof. intros st H; exact H. Qed.

Lemma stable_print (line : string) : stable P (print line).
Proof. intros st H; exact H. Qed.

Lemma stable_invoke {A} (c : Call) (answer : list Call → Result A) :
  stable P (invoke c answer).
Proof. intros st H; exact H. Qed.

Lemma stable_setattr (f : IamRole → IamRole) :
  (∀ r, P r → P (f r)) → stable P (setattr f).
Proof. intros Hf st H; cbn. now apply Hf. Qed.

Lemma stable_bind {A B} (m : M A) (k : A → M B) :
  stable P m → (∀ a, stable P (k a)) → stable P (bind m k).
Proof.
  intros Hm Hk st H. unfold bind.
  specialize (Hm st H). destruct (m st) as [[e|a] st1]; cbn in *.
  - exact Hm.
  - now apply Hk.
Qed.

Lemma stable_when (b : bool) (m : M unit) : stable P m → stable P (when b m).
Proof. intros Hm. destruct b; [exact Hm | apply stable_ret]. Qed.

Lemma stable_for_each {A} (xs : list A) (body : A → M unit) :
  (∀ x, stable P (body x)) → stable P (for_each xs body).
Proof.
  intros Hbody. induction xs as [|x xs IH]; cbn [for_each].
  - apply stable_ret.
  - apply stable_bind; [apply Hbody | intros _; exact IH].
Qed.

Lemma stable_try_except {A} (m : M A) (h : Error → option (M A)) :
  stable P m → (∀ e k, h e = Some k → stable P k) → stable P (try_except m h).
Proof.
  intros Hm Hh st H. unfold try_except.
  specialize (Hm st H). destruct (m st) as [[e|a] st1]; cbn in *.
  - destruct (h e) as [k|] eqn:He; [now apply (Hh e k) | exact Hm].
  - exact Hm.
Qed.

End Stable.

(** Decomposes a [stable] goal along the structure of the computation. *)
Ltac stable_step :=
  lazymatch goal with
  | |- stable _ (bind _ _) => apply stable_bind; [| intros ?]
  | |- stable _ (ret _) => apply stable_ret
  | |- stable _ (raise _) => apply stable_raise
  | |- stable _ (lift _) => apply stable_lift
  | |- stable _ (attr _) => apply stable_attr
  | |- stable _ (print _) => apply stable_print
  | |- stable _ (invoke _ _) => apply stable_invoke
  | |- stable _ (when _ _) => apply stable_when
  | |- stable _ (for_each _ _) => apply stable_for_each; intros ?
  | |- stable _ (setattr _) => apply stable_setattr; intros ? ?; cbn; assumption
  | |- stable _ (match ?x with _ => _ end) => destruct x
  end.

Ltac stable_tac := repeat stable_step.

(** Reduces the projections of explicit states and objects. *)
Ltac simpl_state :=
  cbn [self calls stdout name verbosity _pre_existing _description _service
       _role_policy_document _policies _add_instance_profile _arn
       set_name set_verbosity set_pre_existing set_description set_service
       set_role_policy_document set_policies set_add_instance_profile set_arn].

Section Properties.

Variable IAM : Client.
Variable json_dumps : pyval → string.
Variable str : pyval → string.

(** *** The existence probe *)

Lemma exists_already_missing st :
  get_role IAM (calls st) (name (self st)) = inl NoSuchEntityException →
  _exists_already IAM st =
    (inr (mkRoleExists false None None None None None),
     mkState (self st) (calls st ++ [GetRole (name (self st))]) (stdout st)).
Proof.
  intros Hget. unfold _exists_already.
  unfold try_except, bind, attr, IAM_get_role, invoke; cbn.
  now rewrite Hget.
Qed.

Lemma exists_already_found st role attached :
  get_role IAM (calls st) (name (self st)) = inr role →
  list_attached_role_policies IAM (calls st ++ [GetRole (name (self st))])
                              (name (self st)) = inr attached →
  ∃ st',
    _exists_already IAM st =
      (inr (mkRoleExists true (Some (default "" (Role_Description role)))
                         (Some (Role_AssumeRolePolicyDocument role))
                         (Some attached) (Some false) (Some (Role_Arn role))), st')
    ∧ self st' = self st
    ∧ calls st' = calls st ++ [GetRole (name (self st));
                               ListAttachedRolePolicies (name (self st))].
Proof.
  intros Hget Hlist. unfold _exists_already.
  unfold try_except, bind, attr, IAM_get_role, IAM_list_attached_role_policies,
    invoke, when, print, ret; cbn.
  rewrite Hget; cbn. rewrite Hlist; cbn.
  destruct (0 <? verbosity (self st))%Z; cbn;
    (eexists; split; [destruct (Role_Description role); reflexivity|]);
    cbn; rewrite <- app_assoc; auto.
Qed.

Lemma constructs_fresh_missing (name_ : string) (verbosity_ : Z) (st : State) :
  get_role IAM (calls st) name_ = inl NoSuchEntityException →
  constructs_fresh IAM name_ verbosity_ st.
Proof.
  intros Hget. do 2 eexists.
  split; [apply exists_already_missing; exact Hget | reflexivity].
Qed.

(** Whatever the client answers, a snapshot with [exists = True] has
    [add_instance_profile = False]. *)
Lemma exists_already_flag (st st' : State) (snapshot : RoleExists) :
  _exists_already IAM st = (inr snapshot, st') →
  exists_ snapshot = true →
  re_add_instance_profile snapshot = Some false.
Proof.
  unfold _exists_already, try_except, bind, attr, IAM_get_role,
    IAM_list_attached_role_policies, invoke, when, print, ret; cbn.
  destruct (get_role IAM (calls st) (name (self st))) as [e|role]; cbn.
  - destruct e; intros [= <- _]; discriminate.
  - destruct (list_attached_role_policies IAM _ _) as [e|attached]; cbn.
    + destruct e; intros [= <- _]; discriminate.
    + destruct (0 <? verbosity (self st))%Z; cbn; now intros [= <- _].
Qed.

Lemma stable_create (P : IamRole → Prop) : stable P (_create IAM json_dumps).
Proof.
  unfold _create, IAM_create_role, IAM_list_policies, IAM_attach_role_policy,
    IAM_create_instance_profile, IAM_add_role_to_instance_profile.
  stable_tac.
Qed.

(** *** Destruction *)

Lemma stable_remove_aws_resource (P : IamRole → Prop) :
  stable P (remove_aws_resource IAM).
Proof.
  unfold remove_aws_resource, IAM_list_instance_profiles_for_role,
    IAM_remove_role_from_instance_profile, IAM_delete_instance_profile,
    IAM_list_policies, IAM_detach_role_policy, IAM_delete_role.
  stable_tac.
Qed.

(** C9.  [remove_aws_resource] assigns to no attribute: whatever state it
    is started in and whether it returns or raises partway, the object in
    the final state is the object it was started with, field for field.
    Only the trace of client calls (and the output) can differ. *)
Theorem remove_aws_resource_frame (st : State) :
  self (remove_aws_resource IAM st).2 = self st.
Proof.
  symmetry. now apply (stable_remove_aws_resource (λ r, self st = r)).
Qed.

(** *** Construction: the first steps *)

Lemma in_allowed_services_None service :
  (∀ s, service = PStr s → s ∉ _allowed_services) →
  in_allowed_services service = None.
Proof.
  intros H. destruct service as [| | |s| | |]; try reflexivity.
  cbn. case_bool_decide as Hin; [|reflexivity].
  now destruct (H s eq_refl).
Qed.

Lemma in_allowed_services_Some s :
  s ∈ _allowed_services → in_allowed_services (PStr s) = Some s.
Proof. intros H. cbn. now rewrite bool_decide_eq_true_2. Qed.

(** C1 (as amended).  When no role of the name exists and the service is
    not one of the five allowed names (a string outside the list, or a
    value that is not a string), [__init__] raises
    [Exception('service must be in ', ...)] after exactly one client
    call, the [get_role] of the existence probe; no other operation of
    the client has been called at that point. *)
Theorem init_invalid_service
        (name_ : string) (description service policies add_instance_profile : pyval)
        (verbosity_ : Z) (st : State) :
  (∀ s, service = PStr s → s ∉ _allowed_services) →
  get_role IAM (calls st) name_ = inl NoSuchEntityException →
  ∃ st',
    __init__ IAM json_dumps str name_ description service policies
             add_instance_profile verbosity_ st = (inl InvalidServicePrincipal, st')
    ∧ calls st' = calls st ++ [GetRole name_].
Proof.
  intros Hservice Hget. apply in_allowed_services_None in Hservice.
  unfold __init__.
  erewrite bind_inr by reflexivity.
  erewrite bind_inr by (apply exists_already_missing; exact Hget).
  erewrite bind_inr by reflexivity.
  cbn [exists_]. rewrite Hservice.
  destruct (truthy description);
    (erewrite bind_inr by reflexivity);
    (erewrite bind_inl by reflexivity);
    eexists; split; reflexivity.
Qed.

(** C4.  When a role of the name exists, [__init__] adopts it: it returns,
    having called [get_role] and [list_attached_role_policies] and
    nothing else, and the object has [pre_existing = True],
    [service = None] and as [policies] the names the client reported as
    attached, so the two are equal as sets as well. *)
Theorem init_adopts_existing
        (name_ : string) (description service policies add_instance_profile : pyval)
        (verbosity_ : Z) (st : State) (role : Role) (attached : list string) :
  get_role IAM (calls st) name_ = inr role →
  list_attached_role_policies IAM (calls st ++ [GetRole name_]) name_ = inr attached →
  ∃ st',
    __init__ IAM json_dumps str name_ description service policies
             add_instance_profile verbosity_ st = (inr tt, st')
    ∧ name (self st') = name_
    ∧ _pre_existing (self st') = Some true
    ∧ _service (self st') = None
    ∧ _policies (self st') = Some attached
    ∧ (list_to_set (default [] (_policies (self st'))) : gset string)
      = list_to_set attached
    ∧ _arn (self st') = Some (Role_Arn role)
    ∧ calls st' = calls st ++ [GetRole name_; ListAttachedRolePolicies name_].
Proof.
  intros Hget Hlist.
  destruct (exists_already_found
              (mkState (set_verbosity verbosity_ (set_name name_ (self st)))
                       (calls st) (stdout st)) role attached Hget Hlist)
    as (st1 & Hrun & Hself & Hcalls).
  unfold __init__.
  erewrite bind_inr by reflexivity.
  erewrite bind_inr by exact Hrun.
  cbn. rewrite Hself, Hcalls. cbn.
  eexists; repeat split; reflexivity.
Qed.

(** *** The probe, as the claims state it *)

(** C7.  When [get_role] raises [NoSuchEntityException], the probe does
    not raise: it returns the namedtuple with [exists = False] and every
    other field [None], after that one call, and leaves the object as it
    was. *)
Theorem exists_already_no_such_entity (st : State) :
  get_role IAM (calls st) (name (self st)) = inl NoSuchEntityException →
  ∃ snapshot st',
    _exists_already IAM st = (inr snapshot, st')
    ∧ exists_ snapshot = false
    ∧ re_description snapshot = None
    ∧ re_role_policy_document snapshot = None
    ∧ re_policies snapshot = None
    ∧ re_add_instance_profile snapshot = None
    ∧ re_arn snapshot = None
    ∧ self st' = self st
    ∧ calls st' = calls st ++ [GetRole (name (self st))].
Proof.
  intros Hget. do 2 eexists.
  split; [apply exists_already_missing; exact Hget|].
  cbn. repeat split; reflexivity.
Qed.

(** C5.  When the role exists (both reads of the probe succeed), the
    snapshot has [exists = True] and [add_instance_profile = False].  The
    probe has made two calls, neither of which lists instance profiles,
    so the answer is the same whatever the client would say about the
    profiles bound to the role. *)
Theorem exists_already_never_reports_profile
        (st : State) (role : Role) (attached : list string) :
  get_role IAM (calls st) (name (self st)) = inr role →
  list_attached_role_policies IAM (calls st ++ [GetRole (name (self st))])
                              (name (self st)) = inr attached →
  ∃ snapshot st',
    _exists_already IAM st = (inr snapshot, st')
    ∧ exists_ snapshot = true
    ∧ re_add_instance_profile snapshot = Some false
    ∧ calls st' = calls st ++ [GetRole (name (self st));
                               ListAttachedRolePolicies (name (self st))].
Proof.
  intros Hget Hlist.
  destruct (exists_already_found st role attached Hget Hlist)
    as (st' & Hrun & _ & Hcalls).
  do 2 eexists. split; [exact Hrun|]. cbn. now rewrite Hcalls.
Qed.

(** *** Fresh construction *)

Ltac stable_init :=
  unfold IAM_list_policies;
  repeat first [ apply stable_create | stable_step ].

(** C10.  In a fresh construction the description of the object is
    settled by the first assignment of the branch and nothing after it
    touches it: it is ["This role was generated by cloudknot"] when the
    argument is falsy ([None], the empty string, ...) and [str] of the
    argument otherwise.  This holds of the object however the rest of
    the construction goes. *)
Theorem init_description
        (name_ : string) (description service policies add_instance_profile : pyval)
        (verbosity_ : Z) (st : State) :
  constructs_fresh IAM name_ verbosity_ st →
  _description (self (__init__ IAM json_dumps str name_ description service policies
                               add_instance_profile verbosity_ st).2)
  = Some (if truthy description then str description
          else "This role was generated by cloudknot").
Proof.
  intros (snapshot & st1 & Hprobe & Hfresh). unfold __init__.
  erewrite bind_inr by reflexivity.
  erewrite bind_inr by exact Hprobe.
  erewrite bind_inr by reflexivity.
  rewrite Hfresh.
  destruct (truthy description); (erewrite bind_inr by reflexivity);
    lazymatch goal with
    | |- _description (self (?m ?s).2) = Some ?d =>
        enough (Hst : stable (λ r, _description r = Some d) m)
          by (apply Hst; reflexivity)
    end; stable_init.
Qed.

(** C8.  In a fresh construction with a service [p] that is one of the
    allowed names, the trust policy stored in the object is the
    single-statement document below, with [p] suffixed by
    [".amazonaws.com"] as its principal; nothing after the assignment
    changes it. *)
Theorem init_role_policy_document
        (name_ : string) (description policies add_instance_profile : pyval)
        (p : string) (verbosity_ : Z) (st : State) :
  p ∈ _allowed_services →
  constructs_fresh IAM name_ verbosity_ st →
  _role_policy_document
    (self (__init__ IAM json_dumps str name_ description (PStr p) policies
                    add_instance_profile verbosity_ st).2)
  = Some (PDict [ ("Version", PStr "2012-10-17");
                  ("Statement",
                   PList [ PDict [ ("Sid", PStr "");
                                   ("Effect", PStr "Allow");
                                   ("Principal",
                                    PDict [ ("Service", PStr (p +:+ ".amazonaws.com")) ]);
                                   ("Action", PStr "sts:AssumeRole") ] ]) ]).
Proof.
  intros Hp (snapshot & st1 & Hprobe & Hfresh). unfold __init__.
  erewrite bind_inr by reflexivity.
  erewrite bind_inr by exact Hprobe.
  erewrite bind_inr by reflexivity.
  rewrite Hfresh, (in_allowed_services_Some p Hp).
  destruct (truthy description); do 4 (erewrite bind_inr by reflexivity);
    lazymatch goal with
    | |- _role_policy_document (self (?m ?s).2) = Some ?d =>
        enough (Hst : stable (λ r, _role_policy_document r = Some d) m)
          by (apply Hst; reflexivity)
    end; stable_init.
Qed.

(** *** The check of the requested policies *)

Lemma forallb_is_str_PStr (names : list string) :
  forallb is_str (PStr <$> names) = true.
Proof. induction names as [|n names IH]; [reflexivity | exact IH]. Qed.

Lemma strs_PStr (names : list string) : strs (PStr <$> names) = names.
Proof. induction names as [|n names IH]; [reflexivity | cbn; now rewrite IH]. Qed.

(** The check succeeds exactly when the input is a string or a sequence
    of strings whose set of names is a proper subset of the names on
    offer. *)
Lemma check_policies_inr_iff (policies : pyval) (aws_policies : list string) :
  (∃ chosen, check_policies policies aws_policies = inr chosen)
  ↔ ∃ input_policies,
      input_policies_of policies = inr input_policies
      ∧ input_policies ⊂ list_to_set aws_policies.
Proof.
  unfold check_policies. destruct (input_policies_of policies) as [e|X].
  - split; [intros [? [=]] | intros (? & [=] & _)].
  - case_bool_decide as Hsub; cbn.
    + split; [intros _; now exists X | intros _; eauto].
    + split; [intros [? [=]] | intros (Y & [= <-] & HY); contradiction].
Qed.

Lemma input_policies_of_error (policies : pyval) (e : Error) :
  input_policies_of policies = inl e →
  e = TypeError
  ∨ e = Exception "policies must be a string or a sequence of strings." [].
Proof.
  unfold input_policies_of.
  destruct policies as [| | |s|xs|xs|kvs]; cbn;
    try (intros [= <-]; now left);
    try discriminate;
    destruct (forallb _ _); try discriminate; intros [= <-]; now right.
Qed.

(** The check raises one of the two exceptions of the module exactly when
    the input is a sequence with an element that is not a string, or its
    set of names is not a proper subset of the names on offer. *)
Lemma check_policies_invalid_iff (policies : pyval) (aws_policies : list string) :
  (∃ e, check_policies policies aws_policies = inl e ∧ InvalidPolicySet e)
  ↔ input_policies_of policies
      = inl (Exception "policies must be a string or a sequence of strings." [])
    ∨ ∃ input_policies,
        input_policies_of policies = inr input_policies
        ∧ ¬ input_policies ⊂ list_to_set aws_policies.
Proof.
  unfold check_policies.
  destruct (input_policies_of policies) as [e|X] eqn:Hin.
  - split.
    + intros (e' & [= <-] & Hinv). left.
      destruct (input_policies_of_error _ _ Hin) as [-> | ->]; [|reflexivity].
      destruct Hinv as [[=] | [? [=]]].
    + intros [[= ->] | (? & [=] & _)]. eexists. split; [reflexivity | now left].
  - case_bool_decide as Hsub; cbn.
    + split.
      * intros (? & [=] & _).
      * intros [[=] | (Y & [= <-] & HY)]. contradiction.
    + split.
      * intros _. right. now exists X.
      * intros _. eexists. split; [reflexivity|]. right. now eexists.
Qed.

Lemma check_policies_empty (aws_policies : list string) :
  check_policies (PTuple []) aws_policies =
    match aws_policies with
    | [] => inl (Exception "each policy must be an AWS managed policy: " [])
    | _ :: _ => inr []
    end.
Proof.
  unfold check_policies; cbn.
  destruct aws_policies as [|a l].
  - rewrite bool_decide_eq_false_2; [reflexivity|].
    intros [_ H]. apply H. reflexivity.
  - rewrite bool_decide_eq_true_2; [cbn; now rewrite elements_empty|].
    split; [set_solver|]. intros H. specialize (H a). set_solver.
Qed.

(** C2 (the code at the failing inputs).  When the requested names are,
    as a set, exactly the names on offer, every requested name is on
    offer and yet the check raises
    [Exception('each policy must be an AWS managed policy: ', ...)]: the
    comparison of line 91 is the proper-subset test [<]. *)
Theorem check_policies_rejects_all_available (names aws_policies : list string) :
  (list_to_set names : gset string) = list_to_set aws_policies →
  (∀ n, n ∈ names → n ∈ aws_policies)
  ∧ ∃ e, check_policies (PTuple (PStr <$> names)) aws_policies = inl e
         ∧ InvalidPolicySet e
         ∧ e = Exception "each policy must be an AWS managed policy: " aws_policies.
Proof.
  intros Heq. split.
  - intros n Hn.
    apply (elem_of_list_to_set (C:=gset string)).
    rewrite <- Heq. now apply elem_of_list_to_set.
  - eexists. split; [|split; [right; eexists|]; reflexivity].
    unfold check_policies; cbn.
    rewrite forallb_is_str_PStr, strs_PStr, Heq.
    rewrite bool_decide_eq_false_2; [reflexivity|].
    intros [_ H]. now apply H.
Qed.

(** C3 (the code at the failing inputs).  With a valid service and the
    empty tuple of policies, construction raises when the account offers
    no policy at all: the empty set is not a proper subset of the empty
    set.  The role is not created; the only calls are the probe and
    [list_policies]. *)
Theorem init_no_policies_none_available
        (name_ : string) (description add_instance_profile : pyval)
        (p : string) (verbosity_ : Z) (st : State) :
  p ∈ _allowed_services →
  get_role IAM (calls st) name_ = inl NoSuchEntityException →
  list_policies IAM (calls st ++ [GetRole name_]) = inr [] →
  ∃ st',
    __init__ IAM json_dumps str name_ description (PStr p) (PTuple [])
             add_instance_profile verbosity_ st
    = (inl (Exception "each policy must be an AWS managed policy: " []), st')
    ∧ calls st' = calls st ++ [GetRole name_; ListPolicies].
Proof.
  intros Hp Hget Hlist. unfold __init__.
  erewrite bind_inr by reflexivity.
  erewrite bind_inr by (apply exists_already_missing; exact Hget).
  erewrite bind_inr by reflexivity.
  cbn [exists_]. rewrite (in_allowed_services_Some p Hp).
  destruct (truthy description); do 4 (erewrite bind_inr by reflexivity);
    simpl_state;
    (erewrite bind_inr
      by (unfold IAM_list_policies, invoke; simpl_state; rewrite Hlist; reflexivity));
    (erewrite bind_inl by reflexivity);
    eexists; (split; [reflexivity|]); simpl_state; now rewrite <- app_assoc.
Qed.

(** *** The calls of a destruction *)

Lemma first_arn_present (policy : string) (policy_response : list Policy) :
  policy ∈ PolicyName <$> policy_response →
  first_arn policy policy_response = inr (arn_of policy_response policy).
Proof.
  intros Hin. unfold arn_of, first_arn.
  destruct (filter _ policy_response) as [|q l] eqn:Hf; [|reflexivity].
  apply list_elem_of_fmap in Hin as (q & Hq & Hmem).
  assert (Hq' : q ∈ filter (λ p, PolicyName p = policy) policy_response)
    by (apply list_elem_of_filter; split; [now symmetry | exact Hmem]).
  rewrite Hf in Hq'. now apply not_elem_of_nil in Hq'.
Qed.

Lemma detach_loop (role_name : string) (policy_response : list Policy)
      (policies : list string) :
  (∀ h arn, detach_role_policy IAM h role_name arn = inr tt) →
  (∀ policy, policy ∈ policies → policy ∈ PolicyName <$> policy_response) →
  ∀ st,
    for_each policies
             (λ policy,
                let* policy_arn := lift (first_arn policy policy_response) in
                IAM_detach_role_policy IAM role_name policy_arn) st
    = (inr tt,
       mkState (self st)
               (calls st ++ (DetachRolePolicy role_name
                               <$> (arn_of policy_response <$> policies)))
               (stdout st)).
Proof.
  intros Hdetach. induction policies as [|policy policies IH]; intros Hall st.
  - cbn. rewrite app_nil_r. now destruct st.
  - cbn [for_each].
    erewrite bind_inr.
    2:{ erewrite bind_inr.
        2:{ unfold lift. rewrite first_arn_present; [reflexivity|].
            apply Hall. left. }
        unfold IAM_detach_role_policy, invoke. rewrite Hdetach. reflexivity. }
    rewrite IH by (intros q Hq; apply Hall; now right).
    simpl_state. cbn [fmap list_fmap]. now rewrite <- app_assoc.
Qed.

Lemma filter_is_write_detach (role_name : string) (arns : list string) :
  List.filter is_write (DetachRolePolicy role_name <$> arns)
  = DetachRolePolicy role_name <$> arns.
Proof. induction arns as [|a arns IH]; [reflexivity | cbn; now rewrite IH]. Qed.

(** C6.  For an object with [add_instance_profile = True] and the
    policies [policies], when the client lists at least one instance
    profile for the role, every policy of the object is among those
    [list_policies] answers, and the client accepts the changes,
    [remove_aws_resource] returns and has issued, in this order: the
    listing of the profiles, one removal of the role from the first
    profile, one deletion of that profile, the listing of the policies,
    one detach per policy in the order of the tuple, and one deletion of
    the role.  Among these the calls that change the account are the
    removal, the profile deletion, the [length policies] detaches and the
    role deletion. *)
Theorem remove_aws_resource_calls
        (st : State) (policies : list string)
        (profile : InstanceProfile) (more : list InstanceProfile)
        (policy_response : list Policy) :
  _add_instance_profile (self st) = Some true →
  _policies (self st) = Some policies →
  list_instance_profiles_for_role IAM (calls st) (name (self st))
    = inr (profile :: more) →
  list_policies IAM
    (calls st ++
       [ ListInstanceProfilesForRole (name (self st));
         RemoveRoleFromInstanceProfile (InstanceProfileName profile) (name (self st));
         DeleteInstanceProfile (InstanceProfileName profile) ])
    = inr policy_response →
  (∀ policy, policy ∈ policies → policy ∈ PolicyName <$> policy_response) →
  accepts_teardown IAM (name (self st)) →
  let role_name := name (self st) in
  let detaches :=
    DetachRolePolicy role_name <$> (arn_of policy_response <$> policies) in
  let issued :=
    [ ListInstanceProfilesForRole role_name;
      RemoveRoleFromInstanceProfile (InstanceProfileName profile) role_name;
      DeleteInstanceProfile (InstanceProfileName profile);
      ListPolicies ] ++ detaches ++ [ DeleteRole role_name ] in
  ∃ st',
    remove_aws_resource IAM st = (inr tt, st')
    ∧ calls st' = calls st ++ issued
    ∧ List.filter is_write issued
      = [ RemoveRoleFromInstanceProfile (InstanceProfileName profile) role_name;
          DeleteInstanceProfile (InstanceProfileName profile) ]
        ++ detaches ++ [ DeleteRole role_name ]
    ∧ length detaches = length policies.
Proof.
  intros Hflag Hpolicies Hprofiles Hlist Hall (Hremove & Hdelprof & Hdetach & Hdelrole).
  intros role_name detaches issued.
  assert (Hrun : ∃ st', remove_aws_resource IAM st = (inr tt, st')
                        ∧ calls st' = calls st ++ issued).
  { unfold remove_aws_resource.
    do 2 (erewrite bind_inr by reflexivity).
    rewrite Hflag. cbn [default from_option id when].
    erewrite bind_inr.
    2:{ erewrite bind_inr
          by (unfold IAM_list_instance_profiles_for_role, invoke;
              rewrite Hprofiles; reflexivity).
        cbn beta iota.
        erewrite bind_inr
          by (unfold IAM_remove_role_from_instance_profile, invoke;
              rewrite Hremove; reflexivity).
        unfold IAM_delete_instance_profile, invoke.
        rewrite Hdelprof. reflexivity. }
    erewrite bind_inr
      by (unfold IAM_list_policies, invoke; simpl_state;
          rewrite <- !app_assoc; cbn [app]; rewrite Hlist; reflexivity).
    erewrite bind_inr by reflexivity.
    simpl_state. rewrite Hpolicies.
    erewrite bind_inr by (apply detach_loop; [exact Hdetach | exact Hall]).
    erewrite bind_inr
      by (unfold IAM_delete_role, invoke; rewrite Hdelrole; reflexivity).
    erewrite bind_inr by reflexivity.
    simpl_state. unfold when, print, ret.
    destruct (0 <? verbosity (self st))%Z; eexists; (split; [reflexivity|]);
      simpl_state; subst issued; now rewrite <- !app_assoc. }
  destruct Hrun as (st' & Hrun & Hcalls).
  exists st'. split; [exact Hrun|]. split; [exact Hcalls|]. split.
  - subst issued. cbn [app List.filter is_write].
    rewrite List.filter_app. subst detaches.
    now rewrite filter_is_write_detach.
  - subst detaches. now rewrite !length_fmap.
Qed.

(** *** Construction with no policies, where it succeeds *)

Lemma create_no_policies (st : State) (b : bool) (arn : string)
      (policy_response : list Policy) :
  _policies (self st) = Some [] →
  _add_instance_profile (self st) = Some b →
  (∀ h document d, create_role IAM h (name (self st)) document d = inr arn) →
  (∀ h, list_policies IAM h = inr policy_response) →
  (∀ h profile, create_instance_profile IAM h profile = inr tt) →
  (∀ h profile, add_role_to_instance_profile IAM h profile (name (self st)) = inr tt) →
  ∃ st', _create IAM json_dumps st = (inr arn, st') ∧ self st' = self st.
Proof.
  intros Hpolicies Hflag Hcreate Hlist Hprofile Hadd.
  pose proof (stable_create (λ r, r = self st) st eq_refl) as Hself.
  cbn beta in Hself. revert Hself.
  unfold _create.
  do 3 (erewrite bind_inr by reflexivity; simpl_state).
  erewrite bind_inr
    by (unfold IAM_create_role, invoke; rewrite Hcreate; reflexivity).
  erewrite bind_inr by reflexivity; simpl_state. simpl_state.
  destruct (0 <? verbosity (self st))%Z.
  all: erewrite bind_inr by reflexivity; simpl_state.
  all: erewrite bind_inr
         by (unfold IAM_list_policies, invoke; rewrite Hlist; reflexivity).
  all: erewrite bind_inr by reflexivity; simpl_state; rewrite Hpolicies.
  all: do 2 (erewrite bind_inr by reflexivity; simpl_state); simpl_state; rewrite Hflag.
  all: destruct b; cbn [default from_option id when].
  all: try (erewrite bind_inr by reflexivity; eauto).
  all: erewrite bind_inr;
    [| erewrite bind_inr
         by (unfold IAM_create_instance_profile, invoke; rewrite Hprofile; reflexivity);
       erewrite bind_inr
         by (unfold IAM_add_role_to_instance_profile, invoke; simpl_state;
             rewrite Hadd; reflexivity);
       reflexivity ].
  all: eauto.
Qed.

(** With a valid service, the empty tuple of policies and an account that
    offers at least one policy, construction returns and the object has
    the ARN the client answered, [pre_existing = False] and no policies. *)
Lemma init_no_policies_created
      (name_ : string) (description : pyval) (p : string) (b : bool)
      (verbosity_ : Z) (st : State) (arn : string) (policy_response : list Policy) :
  p ∈ _allowed_services →
  get_role IAM (calls st) name_ = inl NoSuchEntityException →
  policy_response ≠ [] →
  (∀ h, list_policies IAM h = inr policy_response) →
  (∀ h document d, create_role IAM h name_ document d = inr arn) →
  (∀ h profile, create_instance_profile IAM h profile = inr tt) →
  (∀ h profile, add_role_to_instance_profile IAM h profile name_ = inr tt) →
  ∃ st',
    __init__ IAM json_dumps str name_ description (PStr p) (PTuple []) (PBool b)
             verbosity_ st = (inr tt, st')
    ∧ _arn (self st') = Some arn
    ∧ _pre_existing (self st') = Some false
    ∧ _policies (self st') = Some [].
Proof.
  intros Hp Hget Hne Hlist Hcreate Hprofile Hadd. unfold __init__.
  erewrite bind_inr by reflexivity; simpl_state.
  erewrite bind_inr by (apply exists_already_missing; exact Hget); simpl_state.
  erewrite bind_inr by reflexivity; simpl_state.
  cbn [exists_]. rewrite (in_allowed_services_Some p Hp).
  destruct (truthy description); do 4 (erewrite bind_inr by reflexivity; simpl_state).
  all: erewrite bind_inr
         by (unfold IAM_list_policies, invoke; rewrite Hlist; reflexivity).
  all: rewrite check_policies_empty.
  all: destruct policy_response as [|q l]; [done|]; cbn [fmap list_fmap].
  all: do 3 (erewrite bind_inr by reflexivity; simpl_state).
  all: lazymatch goal with
       | |- ∃ st', bind _ _ ?s = _ ∧ _ =>
           destruct (create_no_policies s b arn (q :: l)) as (st1 & Hrun & Hself);
           [ reflexivity | reflexivity | exact Hcreate | exact Hlist
           | exact Hprofile | exact Hadd | ]
       end.
  all: erewrite bind_inr by exact Hrun; simpl_state.
  all: eexists; (split; [reflexivity|]); simpl_state; rewrite Hself; simpl_state.
  all: repeat split; reflexivity.
Qed.

End Properties.

(** * The statements at a concrete account *)

(** No role named ["my-role"]; three managed policies on offer. *)
Lemma init_invalid_service_witness :
  ∃ st',
    __init__ (account None [] managed_policies []) dumps_stub str_stub
             "my-role" PNone (PStr "invalid-service") (PTuple []) (PBool false) 0%Z start
    = (inl InvalidServicePrincipal, st')
    ∧ calls st' = calls start ++ [GetRole "my-role"].
Proof.
  apply (init_invalid_service (account None [] managed_policies []) dumps_stub str_stub
           "my-role" PNone (PStr "invalid-service") (PTuple []) (PBool false) 0%Z start).
  - intros s [= <-]. apply (bool_decide_unpack _). vm_compute. exact I.
  - reflexivity.
Defined.

(** C1, as it is stated, fails: in a construction that raises for an
    invalid service the trace is not empty, since the probe has already
    called [get_role]. *)
Lemma init_invalid_service_after_probe :
  ¬ (∀ (IAM : Client) (json_dumps str : pyval → string) (name_ : string)
       (description service policies add_instance_profile : pyval)
       (verbosity_ : Z) (st : State),
       (∀ s, service = PStr s → s ∉ _allowed_services) →
       get_role IAM (calls st) name_ = inl NoSuchEntityException →
       ∃ st',
         __init__ IAM json_dumps str name_ description service policies
                  add_instance_profile verbosity_ st = (inl InvalidServicePrincipal, st')
         ∧ calls st' = calls st).
Proof.
  intros H.
  destruct (H (account None [] managed_policies []) dumps_stub str_stub
              "my-role" PNone (PStr "invalid-service") (PTuple []) (PBool false) 0%Z start)
    as (st' & Hrun & Hcalls).
  - intros s [= <-]. apply (bool_decide_unpack _). vm_compute. exact I.
  - reflexivity.
  - vm_compute in Hrun. injection Hrun as <-. discriminate Hcalls.
Qed.

Lemma init_adopts_existing_witness :
  ∃ st',
    __init__ (account (Some existing_role) ["AmazonS3ReadOnlyAccess"] managed_policies [])
             dumps_stub str_stub
             "my-role" PNone (PStr "batch") (PTuple []) (PBool true) 0%Z start = (inr tt, st')
    ∧ name (self st') = "my-role"
    ∧ _pre_existing (self st') = Some true
    ∧ _service (self st') = None
    ∧ _policies (self st') = Some ["AmazonS3ReadOnlyAccess"]
    ∧ (list_to_set (default [] (_policies (self st'))) : gset string)
      = list_to_set ["AmazonS3ReadOnlyAccess"]
    ∧ _arn (self st') = Some (Role_Arn existing_role)
    ∧ calls st' = calls start ++ [GetRole "my-role"; ListAttachedRolePolicies "my-role"].
Proof.
  apply (init_adopts_existing
           (account (Some existing_role) ["AmazonS3ReadOnlyAccess"] managed_policies [])
           dumps_stub str_stub "my-role" PNone (PStr "batch") (PTuple []) (PBool true) 0%Z
           start existing_role ["AmazonS3ReadOnlyAccess"]);
    reflexivity.
Defined.

Lemma exists_already_no_such_entity_witness :
  ∃ snapshot st',
    _exists_already (account None [] managed_policies [])
                    (mkState (set_name "missing-role" new_object) [] [])
    = (inr snapshot, st')
    ∧ exists_ snapshot = false
    ∧ re_description snapshot = None
    ∧ re_role_policy_document snapshot = None
    ∧ re_policies snapshot = None
    ∧ re_add_instance_profile snapshot = None
    ∧ re_arn snapshot = None
    ∧ self st' = set_name "missing-role" new_object
    ∧ calls st' = [GetRole "missing-role"].
Proof.
  apply (exists_already_no_such_entity
           (account None [] managed_policies [])
           (mkState (set_name "missing-role" new_object) [] [])).
  reflexivity.
Defined.

(** The role has an instance profile bound, and the probe still answers
    [False]. *)
Lemma exists_already_never_reports_profile_witness :
  ∃ snapshot st',
    _exists_already (account (Some existing_role) [] managed_policies [my_profile])
                    (mkState (set_name "my-role" new_object) [] [])
    = (inr snapshot, st')
    ∧ exists_ snapshot = true
    ∧ re_add_instance_profile snapshot = Some false
    ∧ calls st' = [GetRole "my-role"; ListAttachedRolePolicies "my-role"].
Proof.
  apply (exists_already_never_reports_profile
           (account (Some existing_role) [] managed_policies [my_profile])
           (mkState (set_name "my-role" new_object) [] [])
           existing_role []);
    reflexivity.
Defined.

Lemma init_description_witness :
  _description
    (self (__init__ (account None [] managed_policies []) dumps_stub str_stub
                    "my-role" (PStr "") (PStr "batch") (PStr "AmazonS3ReadOnlyAccess")
                    (PBool false) 0%Z start).2)
  = Some "This role was generated by cloudknot"
  ∧ _description
      (self (__init__ (account None [] managed_policies []) dumps_stub str_stub
                      "my-role" (PStr "for the nightly job") (PStr "batch")
                      (PStr "AmazonS3ReadOnlyAccess") (PBool false) 0%Z start).2)
    = Some "for the nightly job".
Proof.
  split.
  - apply (init_description (account None [] managed_policies []) dumps_stub str_stub
             "my-role" (PStr "") (PStr "batch") (PStr "AmazonS3ReadOnlyAccess")
             (PBool false) 0%Z start).
    apply constructs_fresh_missing. reflexivity.
  - apply (init_description (account None [] managed_policies []) dumps_stub str_stub
             "my-role" (PStr "for the nightly job") (PStr "batch")
             (PStr "AmazonS3ReadOnlyAccess") (PBool false) 0%Z start).
    apply constructs_fresh_missing. reflexivity.
Defined.

Lemma init_role_policy_document_witness :
  _role_policy_document
    (self (__init__ (account None [] managed_policies []) dumps_stub str_stub
                    "my-role" PNone (PStr "batch") (PStr "AmazonS3ReadOnlyAccess")
                    (PBool false) 0%Z start).2)
  = Some (PDict [ ("Version", PStr "2012-10-17");
                  ("Statement",
                   PList [ PDict [ ("Sid", PStr "");
                                   ("Effect", PStr "Allow");
                                   ("Principal",
                                    PDict [ ("Service", PStr "batch.amazonaws.com") ]);
                                   ("Action", PStr "sts:AssumeRole") ] ]) ]).
Proof.
  apply (init_role_policy_document (account None [] managed_policies [])
           dumps_stub str_stub "my-role" PNone (PStr "AmazonS3ReadOnlyAccess")
           (PBool false) "batch" 0%Z start).
  - apply (bool_decide_unpack _). vm_compute. exact I.
  - apply constructs_fresh_missing. reflexivity.
Defined.

(** The request names every policy on offer, once each and one of them
    twice. *)
Lemma check_policies_rejects_all_available_witness :
  (∀ n, n ∈ ["A"; "B"; "A"] → n ∈ ["B"; "A"])
  ∧ ∃ e, check_policies (PTuple (PStr <$> ["A"; "B"; "A"])) ["B"; "A"] = inl e
         ∧ InvalidPolicySet e
         ∧ e = Exception "each policy must be an AWS managed policy: " ["B"; "A"].
Proof.
  apply (check_policies_rejects_all_available ["A"; "B"; "A"] ["B"; "A"]).
  apply (bool_decide_unpack _). vm_compute. exact I.
Defined.

(** An account that offers no policy at all. *)
Lemma init_no_policies_none_available_witness :
  ∃ st',
    __init__ (account None [] [] []) dumps_stub str_stub
             "my-role" PNone (PStr "batch") (PTuple []) (PBool false) 0%Z start
    = (inl (Exception "each policy must be an AWS managed policy: " []), st')
    ∧ calls st' = calls start ++ [GetRole "my-role"; ListPolicies].
Proof.
  apply (init_no_policies_none_available (account None [] [] []) dumps_stub str_stub
           "my-role" PNone (PBool false) "batch" 0%Z start).
  - apply (bool_decide_unpack _). vm_compute. exact I.
  - reflexivity.
  - reflexivity.
Defined.

(** The role as built with an instance profile and two policies. *)
Lemma remove_aws_resource_calls_witness :
  ∃ st',
    remove_aws_resource (account None [] managed_policies [my_profile])
                        (mkState built_role [] []) = (inr tt, st')
    ∧ calls st'
      = [ ListInstanceProfilesForRole "my-role";
          RemoveRoleFromInstanceProfile "my-role-instance-profile" "my-role";
          DeleteInstanceProfile "my-role-instance-profile";
          ListPolicies;
          DetachRolePolicy "my-role" "arn:aws:iam::aws:policy/AWSLambdaExecute";
          DetachRolePolicy "my-role" "arn:aws:iam::aws:policy/AmazonS3ReadOnlyAccess";
          DeleteRole "my-role" ].
Proof.
  destruct (remove_aws_resource_calls
              (account None [] managed_policies [my_profile])
              (mkState built_role [] [])
              ["AWSLambdaExecute"; "AmazonS3ReadOnlyAccess"]
              my_profile [] managed_policies)
    as (st' & Hrun & Hcalls & _).
  - reflexivity.
  - reflexivity.
  - reflexivity.
  - reflexivity.
  - intros policy Hin. apply list_elem_of_In in Hin. apply list_elem_of_In.
    cbn in *. intuition.
  - repeat split; reflexivity.
  - exists st'. split; [exact Hrun | exact Hcalls].
Defined.

(** * Runs *)

(** Construction with an instance profile and two policies (one of them
    named twice), then destruction of the object it leaves. *)
Example construct_my_role :
  let IAM := account None [] managed_policies [my_profile] in
  let built :=
    __init__ IAM dumps_stub str_stub "my-role" PNone (PStr "batch")
             (PTuple [ PStr "AmazonS3ReadOnlyAccess"; PStr "AWSLambdaExecute";
                       PStr "AmazonS3ReadOnlyAccess" ])
             (PBool true) 0%Z start in
  built.1 = inr tt
  ∧ self built.2 = built_role
  ∧ List.filter is_write (calls built.2)
    = [ CreateRole "my-role" "" (Some "This role was generated by cloudknot");
        AttachRolePolicy "arn:aws:iam::aws:policy/AWSLambdaExecute" "my-role";
        AttachRolePolicy "arn:aws:iam::aws:policy/AmazonS3ReadOnlyAccess" "my-role";
        CreateInstanceProfile "my-role-instance-profile";
        AddRoleToInstanceProfile "my-role-instance-profile" "my-role" ]
  ∧ List.filter is_write
      (calls (remove_aws_resource IAM (mkState (self built.2) [] [])).2)
    = [ RemoveRoleFromInstanceProfile "my-role-instance-profile" "my-role";
        DeleteInstanceProfile "my-role-instance-profile";
        DetachRolePolicy "my-role" "arn:aws:iam::aws:policy/AWSLambdaExecute";
        DetachRolePolicy "my-role" "arn:aws:iam::aws:policy/AmazonS3ReadOnlyAccess";
        DeleteRole "my-role" ].
Proof. vm_compute. repeat split; reflexivity. Qed.

(** The scenario of the specification: one policy, no instance profile. *)
Example construct_with_one_policy :
  let built :=
    __init__ (account None [] managed_policies []) dumps_stub str_stub
             "my-role" PNone (PStr "batch") (PTuple [ PStr "AmazonS3ReadOnlyAccess" ])
             (PBool false) 0%Z start in
  built.1 = inr tt
  ∧ _service (self built.2) = Some "batch.amazonaws.com"
  ∧ _policies (self built.2) = Some ["AmazonS3ReadOnlyAccess"].
Proof. vm_compute. repeat split; reflexivity. Qed.

(** The check of the policies on a few inputs.  A value that cannot be
    iterated raises a TypeError rather than the module's own exception. *)
Example check_policies_runs :
  check_policies (PStr "A") ["A"; "B"] = inr ["A"]
  ∧ check_policies (PTuple [PStr "A"; PStr "A"]) ["A"; "B"] = inr ["A"]
  ∧ check_policies (PTuple [PStr "A"; PStr "NOPE"]) ["A"; "B"]
    = inl (Exception "each policy must be an AWS managed policy: " ["A"; "B"])
  ∧ check_policies (PTuple [PStr "A"; PInt 3]) ["A"; "B"]
    = inl (Exception "policies must be a string or a sequence of strings." [])
  ∧ check_policies (PInt 5) ["A"; "B"] = inl TypeError
  ∧ check_policies (PStr "A") ["A"]
    = inl (Exception "each policy must be an AWS managed policy: " ["A"]).
Proof. vm_compute. repeat split; reflexivity. Qed.

(** * Further properties of the methods *)

(** ** Calls a computation can make *)

Section Emits.

Context (Q : Call → Prop).

Lemma emits_silent {A} (m : M A) :
  (∀ st, calls (m st).2 = calls st) → emits Q m.
Proof. intros H st. exists []. now rewrite H, app_nil_r. Qed.

Lemma emits_ret {A} (a : A) : emits Q (ret a).
Proof. now apply emits_silent. Qed.

Lemma emits_raise {A} (e : Error) : emits Q (raise (A:=A) e).
Proof. now apply emits_silent. Qed.

Lemma emits_lift {A} (r : Result A) : emits Q (lift r).
Proof. now apply emits_silent. Qed.

Lemma emits_attr {A} (f : IamRole → A) : emits Q (attr f).
Proof. now apply emits_silent. Qed.

Lemma emits_setattr (f : IamRole → IamRole) : emits Q (setattr f).
Proof. now apply emits_silent. Qed.

Lemma emits_print (line : string) : emits Q (print line).
Proof. now apply emits_silent. Qed.

Lemma emits_invoke {A} (c : Call) (answer : list Call → Result A) :
  Q c → emits Q (invoke c answer).
Proof. intros Hc st. exists [c]. split; [reflexivity | now constructor]. Qed.

Lemma emits_bind {A B} (m : M A) (k : A → M B) :
  emits Q m → (∀ a, emits Q (k a)) → emits Q (bind m k).
Proof.
  intros Hm Hk st. unfold bind.
  destruct (Hm st) as (l1 & H1 & HQ1).
  destruct (m st) as [[e|a] st1]; cbn in *.
  - now exists l1.
  - destruct (Hk a st1) as (l2 & H2 & HQ2).
    exists (l1 ++ l2). rewrite H2, H1, app_assoc.
    split; [reflexivity | now apply Forall_app].
Qed.

Lemma emits_when (b : bool) (m : M unit) : emits Q m → emits Q (when b m).
Proof. intros Hm. destruct b; [exact Hm | apply emits_ret]. Qed.

Lemma emits_for_each {A} (xs : list A) (body : A → M unit) :
  (∀ x, emits Q (body x)) → emits Q (for_each xs body).
Proof.
  intros Hbody. induction xs as [|x xs IH]; cbn [for_each].
  - apply emits_ret.
  - apply emits_bind; [apply Hbody | intros _; exact IH].
Qed.

Lemma emits_try_except {A} (m : M A) (h : Error → option (M A)) :
  emits Q m → (∀ e k, h e = Some k → emits Q k) → emits Q (try_except m h).
Proof.
  intros Hm Hh st. unfold try_except.
  destruct (Hm st) as (l1 & H1 & HQ1).
  destruct (m st) as [[e|a] st1]; cbn in *.
  - destruct (h e) as [k|] eqn:He; [|now exists l1].
    destruct (Hh e k He st1) as (l2 & H2 & HQ2).
    exists (l1 ++ l2). rewrite H2, H1, app_assoc.
    split; [reflexivity | now apply Forall_app].
  - now exists l1.
Qed.

End Emits.

Ltac emits_step :=
  lazymatch goal with
  | |- emits _ (bind _ _) => apply emits_bind; [| intros ?]
  | |- emits _ (ret _) => apply emits_ret
  | |- emits _ (raise _) => apply emits_raise
  | |- emits _ (lift _) => apply emits_lift
  | |- emits _ (attr _) => apply emits_attr
  | |- emits _ (setattr _) => apply emits_setattr
  | |- emits _ (print _) => apply emits_print
  | |- emits _ (invoke _ _) => apply emits_invoke; reflexivity
  | |- emits _ (when _ _) => apply emits_when
  | |- emits _ (for_each _ _) => apply emits_for_each; intros ?
  | |- emits _ (try_except _ _) =>
      apply emits_try_except; [| intros [] ? [= <-]]
  | |- emits _ (match ?x with _ => _ end) => destruct x
  end.

Ltac emits_tac := repeat emits_step.

Ltac unfold_client :=
  unfold IAM_get_role, IAM_list_attached_role_policies, IAM_list_policies,
    IAM_create_role, IAM_attach_role_policy, IAM_create_instance_profile,
    IAM_add_role_to_instance_profile, IAM_list_instance_profiles_for_role,
    IAM_remove_role_from_instance_profile, IAM_delete_instance_profile,
    IAM_detach_role_policy, IAM_delete_role.

Section Behaviour.

Variable IAM : Client.
Variable json_dumps : pyval → string.
Variable str : pyval → string.

(** *** What the methods never do *)

Lemma emits_exists_already (Q : Call → Prop) :
  (∀ c, is_write c = false → Q c) → emits Q (_exists_already IAM).
Proof.
  intros HQ. unfold _exists_already. unfold_client.
  repeat first [ apply emits_invoke; apply HQ; reflexivity | emits_step ].
Qed.

Lemma emits_create (Q : Call → Prop) :
  (∀ c, is_teardown c = false → Q c) → emits Q (_create IAM json_dumps).
Proof.
  intros HQ. unfold _create. unfold_client.
  repeat first [ apply emits_invoke; apply HQ; reflexivity | emits_step ].
Qed.

(** X1.  The existence probe only reads: whatever the client answers and
    however the probe ends, the calls it adds to the trace are reads
    ([get_role], [list_attached_role_policies]), and the object is left as
    it was. *)
Theorem exists_already_only_reads (st : State) :
  self (_exists_already IAM st).2 = self st
  ∧ ∃ issued,
      calls (_exists_already IAM st).2 = calls st ++ issued
      ∧ Forall (λ c, is_write c = false) issued.
Proof.
  split.
  - assert (Hst : stable (λ r, r = self st) (_exists_already IAM)).
    { unfold _exists_already. unfold_client.
      repeat first
        [ apply stable_try_except; [| intros [] ? [= <-]] | stable_step ]. }
    now apply Hst.
  - apply (emits_exists_already (λ c, is_write c = false)). auto.
Qed.

(** X2.  Construction never takes anything down: for every argument, every
    client and every outcome, [__init__] issues no
    [remove_role_from_instance_profile], [delete_instance_profile],
    [detach_role_policy] or [delete_role]; in particular a construction
    that fails partway does not undo what it has created. *)
Theorem init_never_tears_down
        (name_ : string) (description service policies add_instance_profile : pyval)
        (verbosity_ : Z) (st : State) :
  ∃ issued,
    calls (__init__ IAM json_dumps str name_ description service policies
                    add_instance_profile verbosity_ st).2 = calls st ++ issued
    ∧ Forall (λ c, is_teardown c = false) issued.
Proof.
  revert st.
  change (emits (λ c, is_teardown c = false)
                (__init__ IAM json_dumps str name_ description service policies
                          add_instance_profile verbosity_)).
  unfold __init__, ObjectWithArn__init__, IAM_list_policies.
  repeat first
    [ apply emits_exists_already; intros [] ?; (reflexivity || discriminate)
    | apply emits_create; auto
    | emits_step ].
Qed.

(** X3.  Destruction never builds anything: for every object, every client
    and every outcome, [remove_aws_resource] issues no [create_role],
    [attach_role_policy], [create_instance_profile] or
    [add_role_to_instance_profile]. *)
Theorem remove_aws_resource_never_sets_up (st : State) :
  ∃ issued,
    calls (remove_aws_resource IAM st).2 = calls st ++ issued
    ∧ Forall (λ c, is_setup c = false) issued.
Proof.
  revert st.
  change (emits (λ c, is_setup c = false) (remove_aws_resource IAM)).
  unfold remove_aws_resource. unfold_client. emits_tac.
Qed.

(** *** Failures of the probe *)

Lemma exists_already_error (st : State) (e : Error) :
  e ≠ NoSuchEntityException →
  get_role IAM (calls st) (name (self st)) = inl e →
  _exists_already IAM st =
    (inl e, mkState (self st) (calls st ++ [GetRole (name (self st))]) (stdout st)).
Proof.
  intros Hne Hget. unfold _exists_already.
  unfold try_except, bind, attr, IAM_get_role, invoke; cbn.
  rewrite Hget. now destruct e.
Qed.

(** X4.  A failure of [get_role] other than [NoSuchEntityException] is not
    handled: [__init__] raises it to the caller after that one call,
    whatever the other arguments are, and no attribute beyond the name and
    the verbosity has been assigned. *)
Theorem init_probe_error
        (name_ : string) (description service policies add_instance_profile : pyval)
        (verbosity_ : Z) (st : State) (e : Error) :
  e ≠ NoSuchEntityException →
  get_role IAM (calls st) name_ = inl e →
  ∃ st',
    __init__ IAM json_dumps str name_ description service policies
             add_instance_profile verbosity_ st = (inl e, st')
    ∧ self st' = set_verbosity verbosity_ (set_name name_ (self st))
    ∧ calls st' = calls st ++ [GetRole name_].
Proof.
  intros Hne Hget. unfold __init__.
  erewrite bind_inr by reflexivity.
  erewrite bind_inl by (apply exists_already_error; [exact Hne | exact Hget]).
  eexists. repeat split; reflexivity.
Qed.

(** X5.  The handler of the probe covers both reads.  When [get_role]
    finds the role and [list_attached_role_policies] then raises, the
    probe has made both calls; if the exception is
    [NoSuchEntityException] it is swallowed and the answer is
    [exists = False] with every other field [None], as if the role had
    never been there, and any other exception is raised to the caller. *)
Theorem exists_already_listing_fails (st : State) (role : Role) (e : Error) :
  get_role IAM (calls st) (name (self st)) = inr role →
  list_attached_role_policies IAM (calls st ++ [GetRole (name (self st))])
                              (name (self st)) = inl e →
  ∃ st',
    _exists_already IAM st =
      (match e with
       | NoSuchEntityException => inr (mkRoleExists false None None None None None)
       | _ => inl e
       end, st')
    ∧ self st' = self st
    ∧ calls st' = calls st ++ [GetRole (name (self st));
                               ListAttachedRolePolicies (name (self st))].
Proof.
  intros Hget Hlist. unfold _exists_already.
  unfold try_except, bind, attr, IAM_get_role, IAM_list_attached_role_policies,
    invoke; cbn.
  rewrite Hget; cbn. rewrite Hlist; cbn.
  destruct e; cbn; eexists; (split; [reflexivity|]); cbn;
    rewrite <- app_assoc; auto.
Qed.

(** *** Adoption *)

(** X6.  The object that adoption leaves is determined by the two answers
    of the client alone: the description is the one of the role, or the
    empty string when the answer has no ['Description'] key; the trust
    policy is the one of the role, as it came; [add_instance_profile] is
    [False]; [service] is [None]. *)
Theorem init_adopted_object
        (name_ : string) (description service policies add_instance_profile : pyval)
        (verbosity_ : Z) (st : State) (role : Role) (attached : list string) :
  get_role IAM (calls st) name_ = inr role →
  list_attached_role_policies IAM (calls st ++ [GetRole name_]) name_ = inr attached →
  self (__init__ IAM json_dumps str name_ description service policies
                 add_instance_profile verbosity_ st).2
  = {| name := name_;
       verbosity := verbosity_;
       _pre_existing := Some true;
       _description := Some (match Role_Description role with
                             | Some d => d
                             | None => ""
                             end);
       _service := None;
       _role_policy_document := Some (Role_AssumeRolePolicyDocument role);
       _policies := Some attached;
       _add_instance_profile := Some false;
       _arn := Some (Role_Arn role) |}.
Proof.
  intros Hget Hlist.
  destruct (exists_already_found IAM
              (mkState (set_verbosity verbosity_ (set_name name_ (self st)))
                       (calls st) (stdout st)) role attached Hget Hlist)
    as (st1 & Hrun & Hself & Hcalls).
  unfold __init__.
  erewrite bind_inr by reflexivity.
  erewrite bind_inr by exact Hrun.
  cbn. rewrite Hself. cbn. now destruct (Role_Description role).
Qed.

(** X7.  When the role exists, the arguments other than the name and the
    verbosity play no part: two constructions that differ in the
    description, the service, the policies and the flag end in the same
    result and the same state.  No argument is validated on this path, so
    a service outside the allowed list or a malformed policy argument
    raises nothing. *)
Theorem init_adoption_ignores_arguments
        (name_ : string) (verbosity_ : Z) (st : State)
        (role : Role) (attached : list string)
        (description service policies add_instance_profile : pyval)
        (description' service' policies' add_instance_profile' : pyval) :
  get_role IAM (calls st) name_ = inr role →
  list_attached_role_policies IAM (calls st ++ [GetRole name_]) name_ = inr attached →
  __init__ IAM json_dumps str name_ description service policies
           add_instance_profile verbosity_ st
  = __init__ IAM json_dumps str name_ description' service' policies'
             add_instance_profile' verbosity_ st
  ∧ (__init__ IAM json_dumps str name_ description service policies
              add_instance_profile verbosity_ st).1 = inr tt.
Proof.
  intros Hget Hlist.
  destruct (exists_already_found IAM
              (mkState (set_verbosity verbosity_ (set_name name_ (self st)))
                       (calls st) (stdout st)) role attached Hget Hlist)
    as (st1 & Hrun & Hself & Hcalls).
  eassert (Hall : ∀ d s p a,
              __init__ IAM json_dumps str name_ d s p a verbosity_ st = (inr tt, _)).
  { intros d s p a. unfold __init__.
    erewrite bind_inr by reflexivity.
    erewrite bind_inr by exact Hrun.
    cbn. reflexivity. }
  rewrite !Hall. split; reflexivity.
Qed.

(** *** The check of the requested policies, continued *)

Lemma check_policies_inr (policies : pyval) (aws_policies chosen : list string) :
  check_policies policies aws_policies = inr chosen →
  ∃ input_policies : gset string,
    input_policies_of policies = inr input_policies
    ∧ input_policies ⊂ list_to_set aws_policies
    ∧ chosen = elements input_policies.
Proof.
  unfold check_policies.
  destruct (input_policies_of policies) as [e|X]; [discriminate|].
  case_bool_decide as Hsub; cbn; [|discriminate].
  intros [= <-]. now exists X.
Qed.

Lemma check_policies_available (policies : pyval) (aws_policies chosen : list string) :
  check_policies policies aws_policies = inr chosen →
  ∀ policy, policy ∈ chosen → policy ∈ aws_policies.
Proof.
  intros Hcheck policy Hin.
  apply check_policies_inr in Hcheck as (X & _ & [Hsub _] & ->).
  apply elem_of_elements in Hin.
  apply (elem_of_list_to_set (C:=gset string)). now apply Hsub.
Qed.

(** X8.  What a successful check stores in [self._policies]: a tuple
    without repetitions, each of whose names is a policy on offer; and
    because the comparison is strict, at least one policy on offer is not
    in it. *)
Theorem check_policies_chosen (policies : pyval) (aws_policies chosen : list string) :
  check_policies policies aws_policies = inr chosen →
  NoDup chosen
  ∧ (∀ policy, policy ∈ chosen → policy ∈ aws_policies)
  ∧ ∃ policy, policy ∈ aws_policies ∧ policy ∉ chosen.
Proof.
  intros Hcheck. split; [|split].
  - apply check_policies_inr in Hcheck as (X & _ & _ & ->). apply NoDup_elements.
  - now apply check_policies_available with policies.
  - apply check_policies_inr in Hcheck as (X & _ & [Hsub Hnot] & ->).
    destruct (decide (list_to_set aws_policies ⊆ X)) as [Hall|Hsome];
      [contradiction|].
    assert (Hex : ∃ policy, policy ∈ aws_policies ∧ policy ∉ X).
    { clear Hsub Hnot. induction aws_policies as [|a l IH].
      - exfalso. apply Hsome. set_solver.
      - destruct (decide (a ∈ X)) as [Ha|Ha].
        + destruct IH as (q & Hq & HqX).
          * intros Hl. apply Hsome. cbn [list_to_set].
            apply union_subseteq. split; [now apply singleton_subseteq_l | exact Hl].
          * exists q. split; [now right | exact HqX].
        + exists a. split; [now left | exact Ha]. }
    destruct Hex as (q & Hq & HqX).
    exists q. split; [exact Hq|]. now rewrite elem_of_elements.
Qed.


(** *** Fresh construction: the order of the checks *)

(** X10.  In a fresh construction with a valid service, a policy argument
    that the check rejects makes [__init__] raise the exception of the
    check after two calls, the probe and [list_policies]; [create_role]
    has not been called, so nothing exists in the account that did not
    before. *)
Theorem init_policies_rejected
        (name_ : string) (description policies add_instance_profile : pyval)
        (p : string) (verbosity_ : Z) (st : State)
        (response : list Policy) (e : Error) :
  p ∈ _allowed_services →
  get_role IAM (calls st) name_ = inl NoSuchEntityException →
  list_policies IAM (calls st ++ [GetRole name_]) = inr response →
  check_policies policies (PolicyName <$> response) = inl e →
  ∃ st',
    __init__ IAM json_dumps str name_ description (PStr p) policies
             add_instance_profile verbosity_ st = (inl e, st')
    ∧ calls st' = calls st ++ [GetRole name_; ListPolicies].
Proof.
  intros Hp Hget Hlist Hcheck. unfold __init__.
  erewrite bind_inr by reflexivity; simpl_state.
  erewrite bind_inr by (apply exists_already_missing; exact Hget); simpl_state.
  erewrite bind_inr by reflexivity; simpl_state.
  cbn [exists_]. rewrite (in_allowed_services_Some p Hp).
  destruct (truthy description); do 4 (erewrite bind_inr by reflexivity; simpl_state);
    simpl_state;
    (erewrite bind_inr
      by (unfold IAM_list_policies, invoke; simpl_state; rewrite Hlist; reflexivity));
    (erewrite bind_inl by (unfold lift; rewrite Hcheck; reflexivity));
    eexists; (split; [reflexivity|]); simpl_state; now rewrite <- app_assoc.
Qed.

(** X11.  The flag is checked last and by type: in a fresh construction
    whose service and policies are accepted, an [add_instance_profile]
    that is not a [bool] (the integer 1, [None], a string) raises
    [Exception('add_instance_profile is a boolean input')] after the
    probe and [list_policies], before [create_role]. *)
Theorem init_flag_not_bool
        (name_ : string) (description policies add_instance_profile : pyval)
        (p : string) (verbosity_ : Z) (st : State)
        (response : list Policy) (chosen : list string) :
  p ∈ _allowed_services →
  get_role IAM (calls st) name_ = inl NoSuchEntityException →
  list_policies IAM (calls st ++ [GetRole name_]) = inr response →
  check_policies policies (PolicyName <$> response) = inr chosen →
  (∀ b, add_instance_profile ≠ PBool b) →
  ∃ st',
    __init__ IAM json_dumps str name_ description (PStr p) policies
             add_instance_profile verbosity_ st = (inl InvalidInstanceProfileFlag, st')
    ∧ calls st' = calls st ++ [GetRole name_; ListPolicies].
Proof.
  intros Hp Hget Hlist Hcheck Hflag. unfold __init__.
  erewrite bind_inr by reflexivity; simpl_state.
  erewrite bind_inr by (apply exists_already_missing; exact Hget); simpl_state.
  erewrite bind_inr by reflexivity; simpl_state.
  cbn [exists_]. rewrite (in_allowed_services_Some p Hp).
  destruct (truthy description); do 4 (erewrite bind_inr by reflexivity; simpl_state);
    simpl_state;
    (erewrite bind_inr
      by (unfold IAM_list_policies, invoke; simpl_state; rewrite Hlist; reflexivity));
    (erewrite bind_inr by (unfold lift; rewrite Hcheck; reflexivity));
    (erewrite bind_inr by reflexivity; simpl_state);
    (erewrite bind_inl
      by (destruct add_instance_profile as [|b| | | | |];
          first [ reflexivity | now destruct (Hflag b) ]));
    eexists; (split; [reflexivity|]); simpl_state; now rewrite <- app_assoc.
Qed.

(** *** The loops over the policies *)

Lemma for_each_app {A} (xs ys : list A) (body : A → M unit) (st : State) :
  for_each (xs ++ ys) body st
  = bind (for_each xs body) (λ _, for_each ys body) st.
Proof.
  revert st. induction xs as [|x xs IH]; intros st; [reflexivity|].
  cbn [app for_each]. unfold bind in *.
  destruct (body x st) as [[e|[]] st1]; [reflexivity|]. apply IH.
Qed.

Lemma first_arn_absent (policy : string) (policy_response : list Policy) :
  policy ∉ PolicyName <$> policy_response →
  first_arn policy policy_response = inl IndexError.
Proof.
  intros Hout. unfold first_arn.
  destruct (filter _ policy_response) as [|q l] eqn:Hf; [reflexivity|].
  assert (Hq : q ∈ filter (λ p, PolicyName p = policy) policy_response)
    by (rewrite Hf; left).
  apply list_elem_of_filter in Hq as [<- Hq].
  destruct Hout. now apply list_elem_of_fmap_2.
Qed.

Lemma attach_loop (role_name : string) (policy_response : list Policy)
      (verbose : bool) (policies : list string) :
  (∀ h arn, attach_role_policy IAM h arn role_name = inr tt) →
  (∀ policy, policy ∈ policies → policy ∈ PolicyName <$> policy_response) →
  ∀ st, ∃ st',
    for_each policies
             (λ policy,
                let* policy_arn := lift (first_arn policy policy_response) in
                IAM_attach_role_policy IAM policy_arn role_name ;;;
                when verbose
                     (print ("Attached policy " +:+ policy +:+ " to role "
                             +:+ role_name))) st
    = (inr tt, st')
    ∧ self st' = self st
    ∧ calls st' = calls st ++ attaches policy_response role_name policies.
Proof.
  intros Hattach.
  destruct verbose; (induction policies as [|policy policies IH]; intros Hall st;
    [ exists st; cbn; now rewrite app_nil_r | ]).
  all: cbn [for_each].
  all: erewrite bind_inr;
    [| erewrite bind_inr
         by (unfold lift; rewrite first_arn_present;
             [reflexivity | apply Hall; left]);
       erewrite bind_inr
         by (unfold IAM_attach_role_policy, invoke; rewrite Hattach; reflexivity);
       reflexivity ].
  all: lazymatch goal with
       | |- ∃ st', for_each _ _ ?s = _ ∧ _ =>
           destruct (IH (λ q Hq, Hall q (list_elem_of_further _ _ _ Hq)) s)
             as (st' & Hrun & Hself & Hcalls)
       end.
  all: exists st'; (split; [exact Hrun|]); rewrite Hself, Hcalls.
  all: simpl_state; unfold attaches; cbn [fmap list_fmap]; now rewrite <- app_assoc.
Qed.


(** *** Creation *)




(** X13.  A policy that was on offer when the argument was checked and is
    gone from the listing that [_create] fetches: the role has been
    created and the policies before the missing one attached when the
    lookup [policy_filter[0]] raises an IndexError.  The remaining
    policies are not attached, no instance profile is made, and the role
    is left in the account. *)
Theorem create_policy_vanished
        (st : State) (before after : list string) (absent : string) (arn : string)
        (policy_response : list Policy) :
  let role_name := name (self st) in
  let create :=
    CreateRole role_name
               (json_dumps (default PNone (_role_policy_document (self st))))
               (_description (self st)) in
  _policies (self st) = Some (before ++ absent :: after) →
  create_role IAM (calls st) role_name
              (json_dumps (default PNone (_role_policy_document (self st))))
              (_description (self st)) = inr arn →
  list_policies IAM (calls st ++ [create]) = inr policy_response →
  (∀ policy, policy ∈ before → policy ∈ PolicyName <$> policy_response) →
  absent ∉ PolicyName <$> policy_response →
  (∀ h policy_arn, attach_role_policy IAM h policy_arn role_name = inr tt) →
  ∃ st',
    _create IAM json_dumps st = (inl IndexError, st')
    ∧ calls st'
      = calls st ++ [create; ListPolicies]
          ++ attaches policy_response role_name before.
Proof.
  intros role_name create Hpolicies Hcreate Hlist Hall Habsent Hattach.
  subst role_name create. unfold _create.
  do 3 (erewrite bind_inr by reflexivity; simpl_state).
  erewrite bind_inr
    by (unfold IAM_create_role, invoke; rewrite Hcreate; reflexivity).
  erewrite bind_inr by reflexivity; simpl_state. simpl_state.
  destruct (0 <? verbosity (self st))%Z eqn:Hverbose.
  all: erewrite bind_inr by reflexivity; simpl_state.
  all: erewrite bind_inr
         by (unfold IAM_list_policies, invoke; simpl_state; rewrite Hlist; reflexivity).
  all: erewrite bind_inr by reflexivity; simpl_state; rewrite Hpolicies.
  all: lazymatch goal with
       | Hv : _ = ?verbose |- ∃ st', bind (for_each _ _) _ ?s = _ ∧ _ =>
           destruct (attach_loop (name (self st)) policy_response verbose before
                                 Hattach Hall s)
             as (st1 & Hloop & Hself & Hcalls)
       end.
  all: erewrite bind_inl;
    [| rewrite for_each_app; erewrite bind_inr by exact Hloop;
       cbn [for_each];
       erewrite bind_inl
         by (erewrite bind_inl
               by (unfold lift; rewrite first_arn_absent by exact Habsent;
                   reflexivity);
             reflexivity);
       reflexivity ].
  all: eexists; (split; [reflexivity|]).
  all: rewrite Hcalls; simpl_state; rewrite <- ?app_assoc; reflexivity.
Qed.

(** *** Destruction, case by case *)

(** X14.  An object whose flag says there is an instance profile, for a
    role to which none is bound: [remove_aws_resource] raises an
    IndexError on [response['InstanceProfiles'][0]] after the one listing
    call; no policy is detached and the role is not deleted. *)
Theorem remove_aws_resource_no_profile_bound (st : State) :
  _add_instance_profile (self st) = Some true →
  list_instance_profiles_for_role IAM (calls st) (name (self st)) = inr [] →
  ∃ st',
    remove_aws_resource IAM st = (inl IndexError, st')
    ∧ calls st' = calls st ++ [ListInstanceProfilesForRole (name (self st))].
Proof.
  intros Hflag Hprofiles. unfold remove_aws_resource.
  do 2 (erewrite bind_inr by reflexivity; simpl_state).
  rewrite Hflag. cbn [default from_option id when].
  erewrite bind_inl
    by (erewrite bind_inr
          by (unfold IAM_list_instance_profiles_for_role, invoke;
              rewrite Hprofiles; reflexivity);
        reflexivity).
  eexists. split; reflexivity.
Qed.

(** X15.  A failure of the unbinding stops the destruction there: the
    profile is not deleted, no policy is detached and the role is not
    deleted; the exception of the client reaches the caller. *)
Theorem remove_aws_resource_unbind_fails
        (st : State) (profile : InstanceProfile) (more : list InstanceProfile)
        (e : Error) :
  _add_instance_profile (self st) = Some true →
  list_instance_profiles_for_role IAM (calls st) (name (self st))
    = inr (profile :: more) →
  remove_role_from_instance_profile IAM
    (calls st ++ [ListInstanceProfilesForRole (name (self st))])
    (InstanceProfileName profile) (name (self st)) = inl e →
  ∃ st',
    remove_aws_resource IAM st = (inl e, st')
    ∧ calls st'
      = calls st ++ [ ListInstanceProfilesForRole (name (self st));
                      RemoveRoleFromInstanceProfile (InstanceProfileName profile)
                                                    (name (self st)) ].
Proof.
  intros Hflag Hprofiles Hremove. unfold remove_aws_resource.
  do 2 (erewrite bind_inr by reflexivity; simpl_state).
  rewrite Hflag. cbn [default from_option id when].
  erewrite bind_inl
    by (erewrite bind_inr
          by (unfold IAM_list_instance_profiles_for_role, invoke;
              rewrite Hprofiles; reflexivity);
        cbn beta iota;
        erewrite bind_inl
          by (unfold IAM_remove_role_from_instance_profile, invoke; simpl_state;
              rewrite Hremove; reflexivity);
        reflexivity).
  eexists. split; [reflexivity|]. simpl_state. now rewrite <- app_assoc.
Qed.

Lemma remove_run_without_profile
      (st : State) (policies : list string) (policy_response : list Policy) :
  default false (_add_instance_profile (self st)) = false →
  _policies (self st) = Some policies →
  list_policies IAM (calls st) = inr policy_response →
  (∀ policy, policy ∈ policies → policy ∈ PolicyName <$> policy_response) →
  (∀ h arn, detach_role_policy IAM h (name (self st)) arn = inr tt) →
  (∀ h, delete_role IAM h (name (self st)) = inr tt) →
  ∃ st',
    remove_aws_resource IAM st = (inr tt, st')
    ∧ self st' = self st
    ∧ calls st'
      = calls st ++ [ListPolicies]
          ++ detaches policy_response (name (self st)) policies
          ++ [DeleteRole (name (self st))].
Proof.
  intros Hflag Hpolicies Hlist Hall Hdetach Hdelete. unfold remove_aws_resource.
  do 2 (erewrite bind_inr by reflexivity; simpl_state).
  rewrite Hflag. cbn [when].
  erewrite bind_inr by reflexivity; simpl_state.
  erewrite bind_inr by (unfold IAM_list_policies, invoke; rewrite Hlist; reflexivity).
  erewrite bind_inr by reflexivity; simpl_state.
  simpl_state. rewrite Hpolicies.
  erewrite bind_inr by (apply detach_loop; [exact Hdetach | exact Hall]).
  erewrite bind_inr by (unfold IAM_delete_role, invoke; rewrite Hdelete; reflexivity).
  erewrite bind_inr by reflexivity; simpl_state.
  simpl_state. unfold when, print, ret.
  destruct (0 <? verbosity (self st))%Z; eexists; (split; [reflexivity|]);
    simpl_state; (split; [reflexivity|]);
    unfold detaches; rewrite <- list_fmap_compose, <- !app_assoc; reflexivity.
Qed.



(** *** Adoption followed by other methods *)

Lemma init_adopted_run
      (name_ : string) (description service policies add_instance_profile : pyval)
      (verbosity_ : Z) (st : State) (role : Role) (attached : list string) :
  get_role IAM (calls st) name_ = inr role →
  list_attached_role_policies IAM (calls st ++ [GetRole name_]) name_ = inr attached →
  ∃ st',
    __init__ IAM json_dumps str name_ description service policies
             add_instance_profile verbosity_ st = (inr tt, st')
    ∧ name (self st') = name_
    ∧ _policies (self st') = Some attached
    ∧ _add_instance_profile (self st') = Some false
    ∧ calls st' = calls st ++ [GetRole name_; ListAttachedRolePolicies name_].
Proof.
  intros Hget Hlist.
  destruct (exists_already_found IAM
              (mkState (set_verbosity verbosity_ (set_name name_ (self st)))
                       (calls st) (stdout st)) role attached Hget Hlist)
    as (st1 & Hrun & Hself & Hcalls).
  unfold __init__.
  erewrite bind_inr by reflexivity; simpl_state.
  erewrite bind_inr by exact Hrun; simpl_state.
  cbn. rewrite Hself, Hcalls. cbn.
  eexists; repeat split; reflexivity.
Qed.

(** X18.  Destroying an adopted role.  Adoption sets the flag to [False],
    so the destruction that follows detaches the policies that were found
    attached and deletes the role without a single call about instance
    profiles.  What [list_instance_profiles_for_role] would answer plays
    no part: a profile bound to the role is neither unbound nor deleted
    by this module. *)
Theorem adopt_then_remove
        (name_ : string) (description service policies add_instance_profile : pyval)
        (verbosity_ : Z) (st : State) (role : Role) (attached : list string)
        (policy_response : list Policy) :
  get_role IAM (calls st) name_ = inr role →
  list_attached_role_policies IAM (calls st ++ [GetRole name_]) name_ = inr attached →
  list_policies IAM (calls st ++ [GetRole name_; ListAttachedRolePolicies name_])
    = inr policy_response →
  (∀ policy, policy ∈ attached → policy ∈ PolicyName <$> policy_response) →
  (∀ h arn, detach_role_policy IAM h name_ arn = inr tt) →
  (∀ h, delete_role IAM h name_ = inr tt) →
  ∃ st',
    remove_aws_resource IAM
      (__init__ IAM json_dumps str name_ description service policies
                add_instance_profile verbosity_ st).2 = (inr tt, st')
    ∧ calls st'
      = calls st
          ++ [GetRole name_; ListAttachedRolePolicies name_; ListPolicies]
          ++ detaches policy_response name_ attached
          ++ [DeleteRole name_].
Proof.
  intros Hget Hattached Hlist Hall Hdetach Hdelete.
  destruct (init_adopted_run name_ description service policies add_instance_profile
              verbosity_ st role attached Hget Hattached)
    as (st1 & Hinit & Hname & Hpolicies & Hflag & Hcalls).
  rewrite Hinit. cbn [snd].
  destruct (remove_run_without_profile st1 attached policy_response)
    as (st2 & Hrun & _ & Hcalls2).
  - now rewrite Hflag.
  - exact Hpolicies.
  - now rewrite Hcalls.
  - exact Hall.
  - now rewrite Hname.
  - now rewrite Hname.
  - exists st2. split; [exact Hrun|].
    rewrite Hcalls2, Hcalls, Hname, <- !app_assoc. reflexivity.
Qed.

(** X19.  The property [instance_profile_arn] asks the account each time
    and does not consult the flag of the object.  After an adoption the
    flag is [False], and the property still answers the ARN of the first
    profile bound to the role ([None] if there is none), after one
    listing call. *)
Theorem instance_profile_arn_after_adoption
        (name_ : string) (description service policies add_instance_profile : pyval)
        (verbosity_ : Z) (st : State) (role : Role) (attached : list string)
        (profiles : list InstanceProfile) :
  get_role IAM (calls st) name_ = inr role →
  list_attached_role_policies IAM (calls st ++ [GetRole name_]) name_ = inr attached →
  list_instance_profiles_for_role IAM
    (calls st ++ [GetRole name_; ListAttachedRolePolicies name_]) name_
    = inr profiles →
  let adopted :=
    (__init__ IAM json_dumps str name_ description service policies
              add_instance_profile verbosity_ st).2 in
  _add_instance_profile (self adopted) = Some false
  ∧ (instance_profile_arn IAM adopted).1 = inr (InstanceProfileArn <$> head profiles)
  ∧ self (instance_profile_arn IAM adopted).2 = self adopted
  ∧ calls (instance_profile_arn IAM adopted).2
    = calls adopted ++ [ListInstanceProfilesForRole name_].
Proof.
  intros Hget Hattached Hprofiles adopted. subst adopted.
  destruct (init_adopted_run name_ description service policies add_instance_profile
              verbosity_ st role attached Hget Hattached)
    as (st1 & Hinit & Hname & Hpolicies & Hflag & Hcalls).
  rewrite Hinit. cbn [snd]. split; [exact Hflag|].
  unfold instance_profile_arn.
  erewrite bind_inr by reflexivity; simpl_state.
  erewrite bind_inr
    by (unfold IAM_list_instance_profiles_for_role, invoke;
        rewrite Hname, Hcalls, Hprofiles; reflexivity).
  rewrite ?Hname. destruct profiles; cbn; rewrite ?Hcalls; repeat split; reflexivity.
Qed.

(** *** Fresh construction: what is settled early *)

(** X20.  In a fresh construction with an allowed service [p], the object
    has [pre_existing = False] and its [service] attribute is not the
    argument but [p] with [".amazonaws.com"] appended; both hold however
    the rest of the construction goes. *)
Theorem init_service_attribute
        (name_ : string) (description policies add_instance_profile : pyval)
        (p : string) (verbosity_ : Z) (st : State) :
  p ∈ _allowed_services →
  constructs_fresh IAM name_ verbosity_ st →
  let built :=
    (__init__ IAM json_dumps str name_ description (PStr p) policies
              add_instance_profile verbosity_ st).2 in
  _pre_existing (self built) = Some false
  ∧ _service (self built) = Some (p +:+ ".amazonaws.com").
Proof.
  intros Hp (snapshot & st1 & Hprobe & Hfresh) built. subst built.
  unfold __init__.
  erewrite bind_inr by reflexivity; simpl_state.
  erewrite bind_inr by exact Hprobe.
  erewrite bind_inr by reflexivity; simpl_state.
  rewrite Hfresh, (in_allowed_services_Some p Hp).
  destruct (truthy description); do 2 (erewrite bind_inr by reflexivity; simpl_state);
    lazymatch goal with
    | |- _ (self (?m ?s).2) = _ ∧ _ (self (?m ?s).2) = _ =>
        enough (Hst : stable (λ r, _pre_existing r = Some false
                                   ∧ _service r = Some (p +:+ ".amazonaws.com")) m)
          by (apply Hst; split; reflexivity)
    end;
    unfold IAM_list_policies;
    repeat first
      [ apply stable_create
      | apply stable_setattr; intros ? ?; cbn; assumption
      | stable_step ].
Qed.

(** *** Construction followed by destruction *)





End Behaviour.

(** ** Output *)

Section Keeps.

Context (I : State → Prop).

Lemma keeps_ret {A} (a : A) : keeps I (ret a).
Proof. intros st H; exact H. Qed.

Lemma keeps_raise {A} (e : Error) : keeps I (raise (A:=A) e).
Proof. intros st H; exact H. Qed.

Lemma keeps_lift {A} (r : Result A) : keeps I (lift r).
Proof. intros st H; exact H. Qed.

Lemma keeps_attr {A} (f : IamRole → A) : keeps I (attr f).
Proof. intros st H; exact H. Qed.

Lemma keeps_bind {A B} (m : M A) (k : A → M B) :
  keeps I m → (∀ a, keeps I (k a)) → keeps I (bind m k).
Proof.
  intros Hm Hk st H. unfold bind.
  specialize (Hm st H). destruct (m st) as [[e|a] st1]; cbn in *.
  - exact Hm.
  - now apply Hk.
Qed.

Lemma keeps_for_each {A} (xs : list A) (body : A → M unit) :
  (∀ x, keeps I (body x)) → keeps I (for_each xs body).
Proof.
  intros Hbody. induction xs as [|x xs IH]; cbn [for_each].
  - apply keeps_ret.
  - apply keeps_bind; [apply Hbody | intros _; exact IH].
Qed.

Lemma keeps_try_except {A} (m : M A) (h : Error → option (M A)) :
  keeps I m → (∀ e k, h e = Some k → keeps I k) → keeps I (try_except m h).
Proof.
  intros Hm Hh st H. unfold try_except.
  specialize (Hm st H). destruct (m st) as [[e|a] st1]; cbn in *.
  - destruct (h e) as [k|] eqn:He; [now apply (Hh e k) | exact Hm].
  - exact Hm.
Qed.

End Keeps.

Section Quiet.

Context (out : list string).

Lemma quiet_invoke {A} (c : Call) (answer : list Call → Result A) :
  keeps (quiet out) (invoke c answer).
Proof. intros st H; exact H. Qed.

Lemma quiet_setattr (f : IamRole → IamRole) :
  (∀ r, verbosity (f r) = verbosity r) → keeps (quiet out) (setattr f).
Proof. intros Hf st [Hv Hout]. split; cbn; [now rewrite Hf | exact Hout]. Qed.

(** Reading the verbosity of a quiet object gives a value that fails the
    test [> 0]. *)
Lemma quiet_bind_verbosity {B} (k : Z → M B) :
  (∀ v, (0 <? v)%Z = false → keeps (quiet out) (k v)) →
  keeps (quiet out) (bind (attr verbosity) k).
Proof.
  intros Hk st [Hv Hout]. unfold bind, attr.
  apply Hk; [now apply Z.ltb_ge | now split].
Qed.

End Quiet.

Ltac quiet_step :=
  lazymatch goal with
  | |- keeps _ (bind (attr verbosity) _) =>
      apply quiet_bind_verbosity;
      let v := fresh "v" in let Hv := fresh "Hv" in
      intros v Hv; rewrite ?Hv; cbn [when]
  | |- keeps _ (bind _ _) => apply keeps_bind; [| intros ?]
  | |- keeps _ (ret _) => apply keeps_ret
  | |- keeps _ (raise _) => apply keeps_raise
  | |- keeps _ (lift _) => apply keeps_lift
  | |- keeps _ (attr _) => apply keeps_attr
  | |- keeps _ (invoke _ _) => apply quiet_invoke
  | |- keeps _ (setattr _) => apply quiet_setattr; reflexivity
  | |- keeps _ (for_each _ _) => apply keeps_for_each; intros ?
  | |- keeps _ (try_except _ _) =>
      apply keeps_try_except; [| intros [] ? [= <-]]
  | |- keeps _ (when true _) => unfold when
  | |- keeps _ (when false _) => apply keeps_ret
  | |- keeps _ (when ?b _) => destruct b
  | |- keeps _ (match ?x with _ => _ end) => destruct x
  end.

Section Output.

Variable IAM : Client.
Variable json_dumps : pyval → string.
Variable str : pyval → string.

(** X22.  A construction with verbosity 0 (or less) prints nothing,
    whichever branch it takes and however it ends. *)
Theorem init_quiet
        (name_ : string) (description service policies add_instance_profile : pyval)
        (verbosity_ : Z) (st : State) :
  (verbosity_ ≤ 0)%Z →
  stdout (__init__ IAM json_dumps str name_ description service policies
                   add_instance_profile verbosity_ st).2 = stdout st.
Proof.
  intros Hv. unfold __init__.
  erewrite bind_inr by reflexivity.
  lazymatch goal with
  | |- stdout (?m ?s).2 = _ =>
      enough (Hkeeps : keeps (quiet (stdout st)) m)
        by (apply (Hkeeps s); split; [exact Hv | reflexivity])
  end.
  unfold _exists_already, _create. unfold_client.
  repeat quiet_step.
Qed.

(** X23.  The destruction of an object whose verbosity is 0 (or less)
    prints nothing, however it ends. *)
Theorem remove_aws_resource_quiet (st : State) :
  (verbosity (self st) ≤ 0)%Z →
  stdout (remove_aws_resource IAM st).2 = stdout st.
Proof.
  intros Hv.
  enough (Hkeeps : keeps (quiet (stdout st)) (remove_aws_resource IAM))
    by (apply (Hkeeps st); split; [exact Hv | reflexivity]).
  unfold remove_aws_resource. unfold_client.
  repeat quiet_step.
Qed.

End Output.

(** * The further properties at concrete accounts *)

Ltac concrete_elem :=
  let policy := fresh "policy" in
  let Hin := fresh "Hin" in
  intros policy Hin; apply list_elem_of_In in Hin; apply list_elem_of_In;
  cbn in *; intuition.

Ltac concrete_decide := apply (bool_decide_unpack _); vm_compute; exact I.

Lemma init_probe_error_witness :
  ∃ st',
    __init__ denied_account dumps_stub str_stub "my-role" PNone (PStr "batch")
             (PTuple []) (PBool false) 0%Z start
    = (inl (ClientError "AccessDenied"), st')
    ∧ self st' = set_verbosity 0 (set_name "my-role" new_object)
    ∧ calls st' = [GetRole "my-role"].
Proof.
  apply (init_probe_error denied_account dumps_stub str_stub "my-role" PNone
           (PStr "batch") (PTuple []) (PBool false) 0%Z start
           (ClientError "AccessDenied")).
  - discriminate.
  - reflexivity.
Defined.

Lemma exists_already_listing_fails_witness :
  ∃ st',
    _exists_already vanishing_account (mkState (set_name "my-role" new_object) [] [])
    = (inr (mkRoleExists false None None None None None), st')
    ∧ self st' = set_name "my-role" new_object
    ∧ calls st' = [GetRole "my-role"; ListAttachedRolePolicies "my-role"].
Proof.
  apply (exists_already_listing_fails vanishing_account
           (mkState (set_name "my-role" new_object) [] [])
           existing_role NoSuchEntityException);
    reflexivity.
Defined.

(** [existing_role] has no description: the adopted object has the empty
    string. *)
Lemma init_adopted_object_witness :
  self (__init__ (account (Some existing_role) ["AWSLambdaExecute"] managed_policies [])
                 dumps_stub str_stub "my-role" (PStr "ignored") (PStr "batch")
                 (PTuple []) (PBool true) 2%Z start).2
  = {| name := "my-role";
       verbosity := 2;
       _pre_existing := Some true;
       _description := Some "";
       _service := None;
       _role_policy_document := Some (role_policy "ec2.amazonaws.com");
       _policies := Some ["AWSLambdaExecute"];
       _add_instance_profile := Some false;
       _arn := Some "arn:aws:iam::123456789012:role/my-role" |}.
Proof.
  apply (init_adopted_object
           (account (Some existing_role) ["AWSLambdaExecute"] managed_policies [])
           dumps_stub str_stub "my-role" (PStr "ignored") (PStr "batch")
           (PTuple []) (PBool true) 2%Z start existing_role ["AWSLambdaExecute"]);
    reflexivity.
Defined.

(** A valid request and one with a service outside the list, policies
    that are not strings and a flag that is not a [bool]. *)
Lemma init_adoption_ignores_arguments_witness :
  __init__ (account (Some described_role) [] managed_policies []) dumps_stub str_stub
           "my-role" PNone (PStr "batch") (PTuple []) (PBool false) 0%Z start
  = __init__ (account (Some described_role) [] managed_policies []) dumps_stub str_stub
             "my-role" (PInt 7) (PStr "invalid-service") (PTuple [PInt 1]) PNone 0%Z start
  ∧ (__init__ (account (Some described_role) [] managed_policies []) dumps_stub str_stub
              "my-role" PNone (PStr "batch") (PTuple []) (PBool false) 0%Z start).1
    = inr tt.
Proof.
  apply (init_adoption_ignores_arguments
           (account (Some described_role) [] managed_policies []) dumps_stub str_stub
           "my-role" 0%Z start described_role []
           PNone (PStr "batch") (PTuple []) (PBool false)
           (PInt 7) (PStr "invalid-service") (PTuple [PInt 1]) PNone);
    reflexivity.
Defined.

Lemma check_policies_chosen_witness :
  NoDup ["A"; "B"]
  ∧ (∀ policy, policy ∈ ["A"; "B"] → policy ∈ ["C"; "B"; "A"])
  ∧ ∃ policy, policy ∈ ["C"; "B"; "A"] ∧ policy ∉ ["A"; "B"].
Proof.
  apply (check_policies_chosen (PList [PStr "B"; PStr "A"; PStr "B"])
                               ["C"; "B"; "A"] ["A"; "B"]).
  vm_compute. reflexivity.
Defined.


Lemma init_policies_rejected_witness :
  ∃ st',
    __init__ (account None [] managed_policies []) dumps_stub str_stub
             "my-role" PNone (PStr "batch")
             (PTuple [PStr "AWSLambdaExecute"; PStr "NOPE"]) (PBool false) 0%Z start
    = (inl (Exception "each policy must be an AWS managed policy: "
                      (PolicyName <$> managed_policies)), st')
    ∧ calls st' = calls start ++ [GetRole "my-role"; ListPolicies].
Proof.
  apply (init_policies_rejected (account None [] managed_policies []) dumps_stub
           str_stub "my-role" PNone (PTuple [PStr "AWSLambdaExecute"; PStr "NOPE"])
           (PBool false) "batch" 0%Z start managed_policies).
  - concrete_decide.
  - reflexivity.
  - reflexivity.
  - vm_compute. reflexivity.
Defined.

(** The integer 1 is truthy and is still not accepted as the flag. *)
Lemma init_flag_not_bool_witness :
  ∃ st',
    __init__ (account None [] managed_policies []) dumps_stub str_stub
             "my-role" PNone (PStr "batch") (PStr "AWSLambdaExecute") (PInt 1)
             0%Z start
    = (inl InvalidInstanceProfileFlag, st')
    ∧ calls st' = calls start ++ [GetRole "my-role"; ListPolicies].
Proof.
  apply (init_flag_not_bool (account None [] managed_policies []) dumps_stub
           str_stub "my-role" PNone (PStr "AWSLambdaExecute") (PInt 1)
           "batch" 0%Z start managed_policies ["AWSLambdaExecute"]).
  - concrete_decide.
  - reflexivity.
  - reflexivity.
  - vm_compute. reflexivity.
  - discriminate.
Defined.


(** [stale_role] holds ["RetiredPolicy"], which the account does not
    offer: one policy is attached before the lookup fails. *)
Lemma create_policy_vanished_witness :
  ∃ st',
    _create (account None [] managed_policies []) dumps_stub
            (mkState stale_role [] []) = (inl IndexError, st')
    ∧ calls st'
      = [ CreateRole "my-role" "" (Some "This role was generated by cloudknot");
          ListPolicies;
          AttachRolePolicy "arn:aws:iam::aws:policy/AWSLambdaExecute" "my-role" ].
Proof.
  apply (create_policy_vanished (account None [] managed_policies []) dumps_stub
           (mkState stale_role [] [])
           ["AWSLambdaExecute"] ["AmazonS3ReadOnlyAccess"] "RetiredPolicy"
           "arn:aws:iam::123456789012:role/my-role" managed_policies).
  - reflexivity.
  - reflexivity.
  - reflexivity.
  - concrete_elem.
  - concrete_decide.
  - reflexivity.
Defined.

Lemma remove_aws_resource_no_profile_bound_witness :
  ∃ st',
    remove_aws_resource (account None [] managed_policies [])
                        (mkState built_role [] []) = (inl IndexError, st')
    ∧ calls st' = [ListInstanceProfilesForRole "my-role"].
Proof.
  apply (remove_aws_resource_no_profile_bound
           (account None [] managed_policies []) (mkState built_role [] []));
    reflexivity.
Defined.

Lemma remove_aws_resource_unbind_fails_witness :
  ∃ st',
    remove_aws_resource denied_account (mkState built_role [] [])
    = (inl (ClientError "AccessDenied"), st')
    ∧ calls st'
      = [ ListInstanceProfilesForRole "my-role";
          RemoveRoleFromInstanceProfile "my-role-instance-profile" "my-role" ].
Proof.
  apply (remove_aws_resource_unbind_fails denied_account (mkState built_role [] [])
           my_profile [] (ClientError "AccessDenied"));
    reflexivity.
Defined.



(** The adopted role has a profile bound; it is left alone. *)
Lemma adopt_then_remove_witness :
  ∃ st',
    remove_aws_resource
      (account (Some existing_role) ["AWSLambdaExecute"] managed_policies [my_profile])
      (__init__ (account (Some existing_role) ["AWSLambdaExecute"] managed_policies
                         [my_profile])
                dumps_stub str_stub "my-role" PNone (PStr "ec2") (PTuple [])
                (PBool true) 0%Z start).2 = (inr tt, st')
    ∧ calls st'
      = [ GetRole "my-role"; ListAttachedRolePolicies "my-role"; ListPolicies;
          DetachRolePolicy "my-role" "arn:aws:iam::aws:policy/AWSLambdaExecute";
          DeleteRole "my-role" ].
Proof.
  apply (adopt_then_remove
           (account (Some existing_role) ["AWSLambdaExecute"] managed_policies
                    [my_profile])
           dumps_stub str_stub "my-role" PNone (PStr "ec2") (PTuple []) (PBool true)
           0%Z start existing_role ["AWSLambdaExecute"] managed_policies).
  - reflexivity.
  - reflexivity.
  - reflexivity.
  - concrete_elem.
  - reflexivity.
  - reflexivity.
Defined.

Lemma instance_profile_arn_after_adoption_witness :
  let IAM := account (Some described_role) [] managed_policies [my_profile] in
  let adopted :=
    (__init__ IAM dumps_stub str_stub "my-role" PNone (PStr "ec2") (PTuple [])
              (PBool true) 0%Z start).2 in
  _add_instance_profile (self adopted) = Some false
  ∧ (instance_profile_arn IAM adopted).1
    = inr (Some "arn:aws:iam::123456789012:instance-profile/my-role-instance-profile")
  ∧ self (instance_profile_arn IAM adopted).2 = self adopted
  ∧ calls (instance_profile_arn IAM adopted).2
    = calls adopted ++ [ListInstanceProfilesForRole "my-role"].
Proof.
  apply (instance_profile_arn_after_adoption
           (account (Some described_role) [] managed_policies [my_profile])
           dumps_stub str_stub "my-role" PNone (PStr "ec2") (PTuple []) (PBool true)
           0%Z start described_role [] [my_profile]);
    reflexivity.
Defined.

Lemma init_service_attribute_witness :
  let built :=
    (__init__ (account None [] managed_policies []) dumps_stub str_stub
              "my-role" PNone (PStr "spotfleet") (PInt 3) (PBool false) 0%Z start).2 in
  _pre_existing (self built) = Some false
  ∧ _service (self built) = Some "spotfleet.amazonaws.com".
Proof.
  apply (init_service_attribute (account None [] managed_policies []) dumps_stub
           str_stub "my-role" PNone (PInt 3) (PBool false) "spotfleet" 0%Z start).
  - concrete_decide.
  - apply constructs_fresh_missing. reflexivity.
Defined.


Lemma init_quiet_witness :
  stdout (__init__ (account None [] managed_policies []) dumps_stub str_stub
                   "my-role" PNone (PStr "batch") (PStr "AWSLambdaExecute")
                   (PBool true) 0%Z start).2 = stdout start.
Proof.
  apply (init_quiet (account None [] managed_policies []) dumps_stub str_stub
           "my-role" PNone (PStr "batch") (PStr "AWSLambdaExecute") (PBool true)
           0%Z start).
  reflexivity.
Defined.

Lemma remove_aws_resource_quiet_witness :
  stdout (remove_aws_resource (account None [] managed_policies [my_profile])
                              (mkState built_role [] [])).2 = [].
Proof.
  apply (remove_aws_resource_quiet (account None [] managed_policies [my_profile])
           (mkState built_role [] [])).
  reflexivity.
Defined.
